(** * Resume improvement generator: section dispatch and normalisation

    A shallow embedding of [backend/resume_improv_lib/generator.py]
    ([src/old_generator.py]) and the properties of its change filter, entry
    flattener, section resolver and section handlers.

    Modelling choices.
    - Python values reaching the generator (decoded JSON) are the inductive
      [value]; numbers are integers.  A dict is an association list with string
      keys in insertion order ([items()] iterates it in that order, [get] and
      [in] find the first binding).
    - A Python [str] is the [string] of its UTF-8 bytes; emptiness, equality
      and joining are the same on both.  [Str.strip] and [Str.lower] are the
      builtins on ASCII text: [strip] removes the ASCII characters for which
      [str.isspace] holds and [lower] maps A-Z to a-z.  The properties of
      the change filter and of the flattener that are about trimming and
      case are stated over [append_if_changed_with] and
      [_combine_entry_text_with], which take [str.strip] and [str.lower] as
      parameters and so hold of the builtins on every text.
    - The text-rewriting oracle [llm_call] lives outside the module; it is a
      parameter: a function of the client's (hidden) state, the text and the
      instruction that returns a string or [None] together with the next
      client state.
    - The handlers mutate the list [suggestions] and call the oracle: they are
      written in a state-and-exception monad over [world], which also keeps
      the trace of the oracle calls made so far.  The partial operations of
      Python that the code uses ([items[idx]], [analysis[k]]) raise in the
      model as they do in Python. *)

From Stdlib Require Import String Ascii List ZArith Bool Arith Lia.
From Stdlib Require Import Sorting.Sorted.
Import ListNotations.
Open Scope string_scope.
Open Scope list_scope.

Set Warnings "-register-all".

(** ** Python values *)

Inductive value : Type :=
| VNone
| VBool (b : bool)
| VInt (z : Z)
| VStr (s : string)
| VList (l : list value)
| VTuple (l : list value)
| VDict (d : list (string * value)).

Definition dict := list (string * value).

(** [bool(v)] *)
Definition truthy (v : value) : bool :=
  match v with
  | VNone => false
  | VBool b => b
  | VInt z => negb (Z.eqb z 0)
  | VStr s => negb (String.eqb s "")
  | VList l => match l with [] => false | _ => true end
  | VTuple l => match l with [] => false | _ => true end
  | VDict d => match d with [] => false | _ => true end
  end.

(** [a or b] *)
Definition py_or (a b : value) : value := if truthy a then a else b.

(** the first binding of [k] in [d], if any *)
Fixpoint dict_find (d : dict) (k : string) : option value :=
  match d with
  | [] => None
  | (k', v) :: d' => if String.eqb k' k then Some v else dict_find d' k
  end.

(** [d.get(k)] *)
Definition dict_get (d : dict) (k : string) : value :=
  match dict_find d k with
  | Some v => v
  | None => VNone
  end.

(** [k in d] *)
Definition dict_in (k : string) (d : dict) : bool :=
  match dict_find d k with
  | Some _ => true
  | None => false
  end.

(** [[x for x in l if isinstance(x, str)]] *)
Fixpoint only_strs (l : list value) : list string :=
  match l with
  | [] => []
  | VStr s :: l' => s :: only_strs l'
  | _ :: l' => only_strs l'
  end.

(** ** Strings *)

Module Str.

Definition is_space (c : ascii) : bool :=
  let n := nat_of_ascii c in
  (((9 <=? n) && (n <=? 13)) || ((28 <=? n) && (n <=? 32)))%nat.

Fixpoint lstrip (s : string) : string :=
  match s with
  | EmptyString => EmptyString
  | String c s' => if is_space c then lstrip s' else s
  end.

Fixpoint rev (s : string) : string :=
  match s with
  | EmptyString => EmptyString
  | String c s' => rev s' ++ String c EmptyString
  end.

Definition rstrip (s : string) : string := rev (lstrip (rev s)).

(** [s.strip()] *)
Definition strip (s : string) : string := rstrip (lstrip s).

Definition lower_char (c : ascii) : ascii :=
  let n := nat_of_ascii c in
  if ((65 <=? n) && (n <=? 90))%nat then ascii_of_nat (n + 32) else c.

(** [s.lower()] *)
Fixpoint lower (s : string) : string :=
  match s with
  | EmptyString => EmptyString
  | String c s' => String (lower_char c) (lower s')
  end.

Definition upper_char (c : ascii) : ascii :=
  let n := nat_of_ascii c in
  if ((97 <=? n) && (n <=? 122))%nat then ascii_of_nat (n - 32) else c.

(** [s.upper()] *)
Fixpoint upper (s : string) : string :=
  match s with
  | EmptyString => EmptyString
  | String c s' => String (upper_char c) (upper s')
  end.

(** [bool(s)] *)
Definition nonempty (s : string) : bool := negb (String.eqb s "").

(** [all(c.isspace() for c in s)] *)
Fixpoint all_space (s : string) : bool :=
  match s with
  | EmptyString => true
  | String c s' => is_space c && all_space s'
  end.

(** [s.isascii()]: every character is below 128 *)
Fixpoint is_ascii (s : string) : bool :=
  match s with
  | EmptyString => true
  | String c s' => (nat_of_ascii c <? 128)%nat && is_ascii s'
  end.

(** the separator [" • "] *)
Definition BULLET : string := " • ".

(** [sep.join(l)] *)
Definition join (sep : string) (l : list string) : string := String.concat sep l.

End Str.

(** the [.strip().lower()] of both sides of the change test *)
Definition norm (s : string) : string := Str.lower (Str.strip s).

(** ** Suggestions *)

(** Modelled from the spec: the record [ResumeSuggestion] of
    [backend/resume_improv_lib/schemas.py], with the four attributes of the
    Suggestion entity.  [original_text] holds what the caller passed, which
    the filter allows to be [None]. *)
Record ResumeSuggestion : Type := mkResumeSuggestion {
  section : string;
  issue : string;
  original_text : option string;
  improved_text : string
}.

(** the original under which the filter normalises: [original or ""] *)
Definition original_or_empty (original : option string) : string :=
  match original with
  | Some o => o
  | None => ""
  end.

(** [_append_if_changed] as a function of the list it appends to. *)
Definition append_if_changed (out : list ResumeSuggestion)
    (section issue : string) (original improved : option string)
  : list ResumeSuggestion :=
  match improved with
  | None => out
  | Some improved =>
      if negb (Str.nonempty improved) then out
      else
        let orig_norm :=
          Str.lower (Str.strip (match original with
                                | Some o => if Str.nonempty o then o else ""
                                | None => ""
                                end)) in
        let imp_norm := Str.lower (Str.strip improved) in
        if Str.nonempty imp_norm && negb (String.eqb imp_norm orig_norm) then
          out ++ [mkResumeSuggestion section issue original improved]
        else out
  end.

(** ** Entry flattener *)

(** the [for key in (...)] loop of [_combine_entry_text]: the stripped value
    of the first key holding a string that is not blank *)
Fixpoint first_text_field (entry : dict) (keys : list string) : option string :=
  match keys with
  | [] => None
  | key :: keys' =>
      match dict_get entry key with
      | VStr val =>
          if Str.nonempty (Str.strip val) then Some (Str.strip val)
          else first_text_field entry keys'
      | _ => first_text_field entry keys'
      end
  end.

(** the [for k, v in entry.items()] loop that fills [parts] *)
Fixpoint entry_parts (items : dict) : list string :=
  match items with
  | [] => []
  | (_, v) :: items' =>
      match v with
      | VStr s => s :: entry_parts items'
      | VList l => only_strs l ++ entry_parts items'
      | VTuple l => only_strs l ++ entry_parts items'
      | _ => entry_parts items'
      end
  end.

Definition _combine_entry_text (entry : value) : string :=
  match entry with
  | VNone => ""
  | VStr s => s
  | VDict entry =>
      match first_text_field entry
              ["description"; "details"; "summary"; "line"; "text"] with
      | Some val => val
      | None =>
          match dict_get entry "bullets" with
          | VList (b :: bullets) => Str.join Str.BULLET (only_strs (b :: bullets))
          | _ =>
              Str.join Str.BULLET
                (filter (fun p => Str.nonempty (Str.strip p)) (entry_parts entry))
          end
      end
  | VList l => Str.join Str.BULLET (only_strs l)
  | _ => ""
  end.

(** ** The change filter and the flattener over the builtins

    [_append_if_changed] and [_combine_entry_text] once more, with
    [str.strip] and [str.lower] as parameters: [strip] and [lower] stand for
    the builtins as functions on the UTF-8 bytes of a text, and nothing is
    assumed of them.  [append_if_changed], [first_text_field] and
    [_combine_entry_text] above are these at [Str.strip] and [Str.lower],
    which are the builtins on ASCII text. *)

Definition append_if_changed_with (strip lower : string -> string)
    (out : list ResumeSuggestion) (section issue : string)
    (original improved : option string) : list ResumeSuggestion :=
  match improved with
  | None => out
  | Some improved =>
      if negb (Str.nonempty improved) then out
      else
        let orig_norm :=
          lower (strip (match original with
                        | Some o => if Str.nonempty o then o else ""
                        | None => ""
                        end)) in
        let imp_norm := lower (strip improved) in
        if Str.nonempty imp_norm && negb (String.eqb imp_norm orig_norm) then
          out ++ [mkResumeSuggestion section issue original improved]
        else out
  end.

Fixpoint first_text_field_with (strip : string -> string) (entry : dict)
    (keys : list string) : option string :=
  match keys with
  | [] => None
  | key :: keys' =>
      match dict_get entry key with
      | VStr val =>
          if Str.nonempty (strip val) then Some (strip val)
          else first_text_field_with strip entry keys'
      | _ => first_text_field_with strip entry keys'
      end
  end.

Definition _combine_entry_text_with (strip : string -> string) (entry : value)
  : string :=
  match entry with
  | VNone => ""
  | VStr s => s
  | VDict entry =>
      match first_text_field_with strip entry
              ["description"; "details"; "summary"; "line"; "text"] with
      | Some val => val
      | None =>
          match dict_get entry "bullets" with
          | VList (b :: bullets) => Str.join Str.BULLET (only_strs (b :: bullets))
          | _ =>
              Str.join Str.BULLET
                (filter (fun p => Str.nonempty (strip p)) (entry_parts entry))
          end
      end
  | VList l => Str.join Str.BULLET (only_strs l)
  | _ => ""
  end.

(** ** Section resolver *)

Fixpoint _get_items (resume : dict) (keys : list string) : list value :=
  match keys with
  | [] => []
  | k :: keys' =>
      match dict_get resume k with
      | VList items => items
      | _ => _get_items resume keys'
      end
  end.

(** ** Section aliases *)

Definition _EXPERIENCE_KEYS := ["experience"; "work_experience"; "work"; "professional_experience"].
Definition _INTERNSHIP_KEYS := ["internships"; "internship"].
Definition _EDUCATION_KEYS := ["education"; "educations"].
Definition _AWARDS_KEYS := ["awards_achievements"; "awards"; "achievements"; "honors"].
Definition _POR_KEYS := ["positions_of_responsibility"; "leadership"; "por"].
Definition _CO_CURR_KEYS := ["co_curricular"; "co_curricular_activities"; "cocurricular"].
Definition _EXTRA_CURR_KEYS := ["extra_curricular"; "extracurricular"; "extracurricular_activities"].
Definition _SKILLS_KEYS := ["skills"].
Definition _SUMMARY_KEYS := ["summary"; "objective"; "profile"].

(** ** Instructions handed to the oracle *)

Module Instr.
Definition ADD_METRICS := "Add measurable impact and metrics without inventing facts".
Definition STRONG_VERBS := "Strengthen action verbs; start with a strong verb".
Definition ACHIEVEMENT := "Rewrite as an achievement with outcome and scale".
Definition ONE_LINE := "Make this a concise one-line resume bullet".
Definition KEYWORDS := "Include job-relevant keywords naturally if present in input".
Definition CONCISE_BULLET := "Make this concise, single resume bullet".
Definition EDU_GENERIC : string :=
  "Rewrite as a clean one-line education entry: " ++
  "Degree, Major — Institute, Location — Dates. " ++
  "Include GPA/CGPA and honors only if present in input. Do not invent.".
Definition EDU_DATES :=
  "Standardize dates to MMM YYYY or YYYY range if present; keep concise; do not fabricate.".
Definition EDU_GPA :=
  "If GPA/CGPA is present in the input, include it in a standard format; otherwise omit.".
Definition EDU_WORDY :=
  "Make this a single concise line focusing on degree, institute, location, dates (and GPA if present).".
Definition EDU_SECTION : string :=
  "Polish education entries to one-line standardized format: " ++
  "Degree, Major — Institute, Location — Dates — GPA/CGPA (if present). " ++
  "Do not invent any data.".
Definition SKILLS : string :=
  "Cluster by category (e.g., Languages, Frameworks, Tools) and include proficiency levels " ++
  "only if present in input. Keep it concise.".
Definition SUMMARY_SPECIFIC := "Make summary specific and tailored to the target role".
Definition SUMMARY_CONCISE := "Make summary concise (2–3 lines)".
Definition AWARDS := "Rewrite as crisp, impact-focused bullets; keep titles and recognition clear".
Definition POR :=
  "Emphasize leadership, scope, and outcomes; keep bullets concise and achievement-focused".
Definition CO_CURR := "Refine to concise bullets showing relevance and impact; avoid fluff".
Definition EXTRA_CURR :=
  "Highlight leadership, scale, achievements; keep it to tight resume bullets".
End Instr.

(** ** Skills text *)

(** the [for k in (...)] loop of [_get_skills_text] over a dict of skills *)
Fixpoint skills_of_groups (skills : dict) (keys : list string) : list string :=
  match keys with
  | [] => []
  | k :: keys' =>
      match dict_get skills k with
      | VList vals => only_strs vals ++ skills_of_groups skills keys'
      | _ => skills_of_groups skills keys'
      end
  end.

Definition _get_skills_text (resume_text : dict) : string :=
  let skills := dict_get resume_text "skills" in
  let flat :=
    match skills with
    | VList skills => only_strs skills
    | VDict skills =>
        skills_of_groups skills ["technical"; "tools"; "languages"; "frameworks"; "soft"]
    | _ => []
    end in
  Str.join ", " flat.

(** ** Effects: the suggestion list, the oracle and exceptions *)

Inductive exn : Type := IndexError | KeyError.

Inductive result (A : Type) : Type :=
| Ok (a : A)
| Raise (e : exn).
Arguments Ok {A} a.
Arguments Raise {A} e.

(** the truth value of [analysis] and [resume_text], a dict or [None] *)
Definition dict_truthy (d : option dict) : bool :=
  match d with
  | Some (_ :: _) => true
  | _ => false
  end.

Definition dict_or_empty (d : option dict) : dict :=
  match d with
  | Some d => d
  | None => []
  end.

(** [x is not None] *)
Definition is_not_None (v : value) : bool :=
  match v with
  | VNone => false
  | _ => true
  end.

(** [" • ".join([_combine_entry_text(x) for x in items])] *)
Definition section_block (items : list value) : string :=
  Str.join Str.BULLET (map _combine_entry_text items).

(** ** The processing order as the specification words it

    The rewrites the generator attempts, written as data: sections in their
    fixed order, within a section the issue entries by index, within an item
    the rows of the flag table of its handler in the order of the table.
    Nothing here depends on what the oracle answers. *)

Module Spec.

(** one oracle call together with the labels of the suggestion it may yield *)
Record attempt : Type := mkAttempt {
  a_section : string;
  a_issue : string;
  a_text : string;
  a_instruction : string
}.

(** a row of a flag table: the flags that trigger it, the instruction, the
    issue label *)
Definition row : Type := list string * string * string.

Definition flag_set (flags : dict) (names : list string) : bool :=
  existsb (fun n => truthy (dict_get flags n)) names.

Definition fired (flags : dict) (table : list row) : list row :=
  filter (fun r => flag_set flags (fst (fst r))) table.

Definition to_attempt (section text : string) (r : row) : attempt :=
  mkAttempt section (snd r) text (snd (fst r)).

Definition EXPERIENCE_FLAGS : list row :=
  [ (["no_metrics"; "missing_metrics"], Instr.ADD_METRICS, "No measurable impact");
    (["weak_action_verbs"], Instr.STRONG_VERBS, "Weak action verbs");
    (["responsibility_over_achievement"], Instr.ACHIEVEMENT, "Not achievement-oriented");
    (["too_wordy"; "too_long"], Instr.ONE_LINE, "Too wordy");
    (["missing_keywords"], Instr.KEYWORDS, "Missing keywords") ].

Definition SIMPLE_LIST_FLAGS (generic_instruction : string) : list row :=
  [ (["too_generic"; "missing_impact"], generic_instruction, "Too generic");
    (["too_wordy"; "too_long"], Instr.CONCISE_BULLET, "Too wordy") ].

Definition EDUCATION_FLAGS : list row :=
  [ (["too_generic"], Instr.EDU_GENERIC, "Too generic");
    (["missing_dates"], Instr.EDU_DATES, "Missing dates");
    (["missing_gpa"], Instr.EDU_GPA, "GPA/CGPA formatting");
    (["too_wordy"; "too_long"], Instr.EDU_WORDY, "Too wordy") ].

Definition SUMMARY_FLAGS : list row :=
  [ (["too_generic"], Instr.SUMMARY_SPECIFIC, "Summary too generic");
    (["too_long"], Instr.SUMMARY_CONCISE, "Summary too long");
    (["missing_keywords"], Instr.KEYWORDS, "Missing keywords") ].

Definition experience_item (section text : string) (flags : dict) : list attempt :=
  map (to_attempt section text) (fired flags EXPERIENCE_FLAGS).

Definition simple_list_item (section generic_instruction text : string)
    (flags : dict) : list attempt :=
  match fired flags (SIMPLE_LIST_FLAGS generic_instruction) with
  | [] =>
      if truthy (VDict flags)
      then [mkAttempt section "Improve phrasing" text generic_instruction]
      else []
  | rows => map (to_attempt section text) rows
  end.

Definition education_item (text : string) (flags : dict) : list attempt :=
  map (to_attempt "education" text) (fired flags EDUCATION_FLAGS).

(** the flattened item at an index; empty when there is no such item *)
Definition text_at (items : list value) (idx : nat) : string :=
  match nth_error items idx with
  | Some entry => _combine_entry_text entry
  | None => ""
  end.

(** the issue entries by index; an entry that is no flag-mapping and an
    item without text are skipped *)
Definition per_item (items issues : list value)
    (item : string -> dict -> list attempt) : list attempt :=
  flat_map
    (fun p : nat * value =>
       match snd p with
       | VDict flags =>
           let text := text_at items (fst p) in
           if Str.nonempty text then item text flags else []
       | _ => []
       end)
    (combine (seq 0 (length issues)) issues).

(** a section-level flag-mapping: the whole section as one block *)
Definition whole_section (section label instruction : string)
    (names : list string) (items : list value) (flags : dict) : list attempt :=
  if flag_set flags names then
    let block := section_block items in
    if Str.nonempty block then [mkAttempt section label block instruction] else []
  else [].

Definition experience_like (section : string) (items : list value)
    (issues : value) : list attempt :=
  match issues with
  | VList issues => per_item items issues (experience_item section)
  | _ => []
  end.

Definition simple_list (section generic_instruction : string)
    (items : list value) (issues : value) : list attempt :=
  match issues with
  | VList issues =>
      per_item items issues (simple_list_item section generic_instruction)
  | VDict flags =>
      whole_section section "Section too generic" generic_instruction
        ["too_generic"; "too_long"; "missing_impact"] items flags
  | _ => []
  end.

Definition education (items : list value) (issues : value) : list attempt :=
  match issues with
  | VList issues => per_item items issues education_item
  | VDict flags =>
      whole_section "education" "Section needs standardization" Instr.EDU_SECTION
        ["too_generic"; "too_long"] items flags
  | _ => []
  end.

Definition skills (document : dict) (issues : value) : list attempt :=
  let text := _get_skills_text document in
  match issues with
  | VDict flags =>
      if Str.nonempty text && flag_set flags ["too_generic"; "missing_proficiency"]
      then [mkAttempt "skills"
              (if truthy (dict_get flags "too_generic") then "Skills too generic"
               else "Missing proficiency levels")
              text Instr.SKILLS]
      else []
  | _ => []
  end.

Definition summary (document : dict) (issues : value) : list attempt :=
  match dict_get document "summary", issues with
  | VStr text, VDict flags =>
      if Str.nonempty text
      then map (to_attempt "summary" text) (fired flags SUMMARY_FLAGS)
      else []
  | _, _ => []
  end.

(** issue lookup: the value under the first alias that is a key of the
    analysis, verbatim; [None] when no alias is *)
Fixpoint resolve_issues (analysis : dict) (keys : list string) : value :=
  match keys with
  | [] => VNone
  | k :: keys' =>
      match dict_find analysis k with
      | Some v => v
      | None => resolve_issues analysis keys'
      end
  end.

Inductive shape : Type :=
| ExperienceLike
| Education
| SimpleList (generic_instruction : string)
| Skills
| Summary.

(** the nine logical sections in their fixed order: label, aliases, shape *)
Definition SECTIONS : list (string * list string * shape) :=
  [ ("experience", _EXPERIENCE_KEYS, ExperienceLike);
    ("internships", _INTERNSHIP_KEYS, ExperienceLike);
    ("education", _EDUCATION_KEYS, Education);
    ("awards_achievements", _AWARDS_KEYS, SimpleList Instr.AWARDS);
    ("positions_of_responsibility", _POR_KEYS, SimpleList Instr.POR);
    ("co_curricular", _CO_CURR_KEYS, SimpleList Instr.CO_CURR);
    ("extra_curricular", _EXTRA_CURR_KEYS, SimpleList Instr.EXTRA_CURR);
    ("skills", _SKILLS_KEYS, Skills);
    ("summary", _SUMMARY_KEYS, Summary) ].

Definition section_attempts (analysis document : dict)
    (s : string * list string * shape) : list attempt :=
  let label := fst (fst s) in
  let keys := snd (fst s) in
  let issues := resolve_issues analysis keys in
  let items := _get_items document keys in
  let listed := truthy (VList items) && is_not_None issues in
  match snd s with
  | ExperienceLike => if listed then experience_like label items issues else []
  | Education => if listed then education items issues else []
  | SimpleList generic_instruction =>
      if listed then simple_list label generic_instruction items issues else []
  | Skills => if is_not_None issues then skills document issues else []
  | Summary => if is_not_None issues then summary document issues else []
  end.

Definition plan (analysis document : dict) : list attempt :=
  flat_map (section_attempts analysis document) SECTIONS.

(** position of a section label in the fixed order *)
Fixpoint index_of (label : string) (labels : list string) : nat :=
  match labels with
  | [] => 0
  | l :: labels' => if String.eqb l label then 0 else S (index_of label labels')
  end.

Definition rank (label : string) : nat :=
  index_of label (map (fun s => fst (fst s)) SECTIONS).

(** [sub] is [l] with some elements left out, order kept *)
Inductive subseq {A : Type} : list A -> list A -> Prop :=
| subseq_nil : subseq [] []
| subseq_keep x sub l : subseq sub l -> subseq (x :: sub) (x :: l)
| subseq_drop x sub l : subseq sub l -> subseq sub (x :: l).

(** the oracle call of an attempt: (text, instruction) *)
Definition call_of (a : attempt) : string * string :=
  (a_text a, a_instruction a).

(** what an attempt fixes of the suggestion it may yield *)
Definition head_of_attempt (a : attempt) : string * string * option string :=
  (a_section a, a_issue a, Some (a_text a)).

Definition head_of_suggestion (s : ResumeSuggestion)
  : string * string * option string :=
  (section s, issue s, original_text s).

(** the invariant of a Suggestion: a non-empty improved text that differs
    from the original after trimming and lowercasing, and a non-empty
    original *)
Definition well_formed (s : ResumeSuggestion) : Prop :=
  improved_text s <> ""
  /\ norm (improved_text s) <> norm (original_or_empty (original_text s))
  /\ exists o, original_text s = Some o /\ o <> "".

End Spec.

(** ** Names shared by the statements below *)

(** the text fields of a mapping item, in the order [_combine_entry_text]
    tries them *)
Definition TEXT_FIELDS : list string :=
  ["description"; "details"; "summary"; "line"; "text"].

(** a value that is neither a string nor a list or tuple: the flattener
    takes no text from it *)
Definition holds_no_text (v : value) : bool :=
  match v with
  | VStr _ | VList _ | VTuple _ => false
  | _ => true
  end.

(** the section labels the entry point passes to its handlers *)
Definition SECTION_LABELS : list string :=
  ["experience"; "internships"; "education"; "awards_achievements";
   "positions_of_responsibility"; "co_curricular"; "extra_curricular";
   "skills"; "summary"].

(** every alias under which the entry point looks for issues *)
Definition ISSUE_KEYS : list string :=
  _EXPERIENCE_KEYS ++ _INTERNSHIP_KEYS ++ _EDUCATION_KEYS ++ _AWARDS_KEYS
  ++ _POR_KEYS ++ _CO_CURR_KEYS ++ _EXTRA_CURR_KEYS ++ _SKILLS_KEYS
  ++ _SUMMARY_KEYS.

(** the instructions of the experience-like handler *)
Definition EXPERIENCE_INSTRUCTIONS : list string :=
  [Instr.ADD_METRICS; Instr.STRONG_VERBS; Instr.ACHIEVEMENT; Instr.ONE_LINE;
   Instr.KEYWORDS].

(** the oracle calls of one run of the entry point: none behind the guard,
    those of the plan otherwise *)
Definition planned_calls (analysis resume_text : option dict)
  : list (string * string) :=
  if dict_truthy analysis && dict_truthy resume_text
  then map Spec.call_of
         (Spec.plan (dict_or_empty analysis) (dict_or_empty resume_text))
  else [].

(** ** Sample oracles and inputs *)

Module Sample.

(** an oracle that answers with the text followed by a mark, and counts its
    calls *)
Definition marking (n : nat) (text instruction : string) : option string * nat :=
  (Some (text ++ " (revised)")%string, S n).

(** an oracle that answers with the text in upper case between blanks *)
Definition shouting (n : nat) (text instruction : string) : option string * nat :=
  (Some (" " ++ Str.upper text ++ " ")%string, S n).

(** an oracle that has no answer *)
Definition silent (n : nat) (text instruction : string) : option string * nat :=
  (None, S n).

Definition three_flags : dict :=
  [("no_metrics", VBool true); ("weak_action_verbs", VBool true);
   ("too_wordy", VBool true)].

Definition two_flags : dict :=
  [("no_metrics", VBool true); ("weak_action_verbs", VBool true)].

Definition unknown_flags : dict := [("vague", VBool true)].

Definition summary_document : dict := [("summary", VStr "I am a hardworking person.")].
Definition summary_analysis : dict := [("summary", VDict [("too_generic", VBool true)])].

Definition education_document : dict :=
  [("education", VList [VDict [("description", VStr "BS CS, MIT, 2020")]])].
Definition education_analysis : dict :=
  [("education", VList [VDict [("too_generic", VBool true);
                               ("missing_dates", VBool true)]])].

Definition awards_document : dict := [("awards", VList [VStr "Dean's list 2019"])].
Definition awards_analysis : dict :=
  [("awards", VList [VDict []; VDict [("too_generic", VBool true)]])].

Definition skills_document : dict :=
  [("skills", VDict [("languages", VList [VStr "Python"; VStr "Go"]);
                     ("tools", VList [VStr "Git"])])].

End Sample.

Section Generator.

(** The oracle: the state of [llm_client] and the function [llm_call] of
    [backend/resume_improv_lib/llm_handler.py], which returns the rewritten
    text, or [None] or the empty string when it has none. *)
Variable Client : Type.
Variable llm_call : Client -> string -> string -> option string * Client.

Record world : Type := mkWorld {
  llm_client : Client;
  calls : list (string * string);      (* trace of (text, instruction) *)
  suggestions : list ResumeSuggestion  (* the list the handlers append to *)
}.

Definition M (A : Type) : Type := world -> result (A * world).

Definition ret {A} (a : A) : M A := fun w => Ok (a, w).

Definition bind {A B} (m : M A) (f : A -> M B) : M B :=
  fun w =>
    match m w with
    | Ok (a, w') => f a w'
    | Raise e => Raise e
    end.

Definition raise {A} (e : exn) : M A := fun _ => Raise e.

Notation "x <- m ;; k" := (bind m (fun x => k))
  (at level 61, m at next level, right associativity).
Notation "m ;;; k" := (bind m (fun _ => k))
  (at level 61, right associativity).

Definition when (c : bool) (m : M unit) : M unit :=
  if c then m else ret tt.

(** [for idx, x in enumerate(l)], counting from [idx] *)
Fixpoint for_enumerate {A} (body : nat -> A -> M unit) (idx : nat) (l : list A)
  : M unit :=
  match l with
  | [] => ret tt
  | x :: l' => body idx x ;;; for_enumerate body (S idx) l'
  end.

(** [items[idx]] *)
Definition list_index (items : list value) (idx : nat) : M value :=
  match nth_error items idx with
  | Some v => ret v
  | None => raise IndexError
  end.

(** [d[k]] *)
Definition dict_subscript (d : dict) (k : string) : M value :=
  match dict_find d k with
  | Some v => ret v
  | None => raise KeyError
  end.

(** [llm_call(llm_client, text, instruction)] *)
Definition call_llm (text instruction : string) : M (option string) :=
  fun w =>
    let (improved, client') := llm_call (llm_client w) text instruction in
    Ok (improved,
        mkWorld client' (calls w ++ [(text, instruction)]) (suggestions w)).

Definition _append_if_changed (section issue : string)
    (original improved : option string) : M unit :=
  fun w =>
    Ok (tt, mkWorld (llm_client w) (calls w)
              (append_if_changed (suggestions w) section issue original improved)).

Fixpoint _get_section_issues (analysis : dict) (keys : list string) : M value :=
  match keys with
  | [] => ret VNone
  | k :: keys' =>
      if dict_in k analysis then dict_subscript analysis k
      else _get_section_issues analysis keys'
  end.

(** [_combine_entry_text(items[idx] if idx < len(items) else "")] *)
Definition item_text (items : list value) (idx : nat) : M string :=
  entry <- (if (idx <? length items)%nat then list_index items idx
            else ret (VStr "")) ;;
  ret (_combine_entry_text entry).

(** the recurring pair: one oracle call, then the change filter *)
Definition rewrite_and_append (section issue original instruction : string)
  : M unit :=
  improved <- call_llm original instruction ;;
  _append_if_changed section issue (Some original) improved.

Definition _process_experience_like (section_label : string)
    (items : list value) (issues : value) : M unit :=
  match issues with
  | VList issues =>
      for_enumerate (fun idx issue_dict =>
        match issue_dict with
        | VDict issue_dict =>
            original <- item_text items idx ;;
            if negb (Str.nonempty original) then ret tt
            else
              when (truthy (py_or (dict_get issue_dict "no_metrics")
                                  (dict_get issue_dict "missing_metrics")))
                (rewrite_and_append section_label "No measurable impact"
                   original Instr.ADD_METRICS) ;;;
              when (truthy (dict_get issue_dict "weak_action_verbs"))
                (rewrite_and_append section_label "Weak action verbs"
                   original Instr.STRONG_VERBS) ;;;
              when (truthy (dict_get issue_dict "responsibility_over_achievement"))
                (rewrite_and_append section_label "Not achievement-oriented"
                   original Instr.ACHIEVEMENT) ;;;
              when (truthy (py_or (dict_get issue_dict "too_wordy")
                                  (dict_get issue_dict "too_long")))
                (rewrite_and_append section_label "Too wordy"
                   original Instr.ONE_LINE) ;;;
              when (truthy (dict_get issue_dict "missing_keywords"))
                (rewrite_and_append section_label "Missing keywords"
                   original Instr.KEYWORDS)
        | _ => ret tt
        end) 0 issues
  | _ => ret tt
  end.

Definition _process_simple_list_section (section_label : string)
    (items : list value) (issues : value) (generic_instruction : string)
  : M unit :=
  match issues with
  | VList issues =>
      for_enumerate (fun idx issue_dict =>
        match issue_dict with
        | VDict issue_dict =>
            original <- item_text items idx ;;
            if negb (Str.nonempty original) then ret tt
            else
              let applied := false in
              applied <-
                (if truthy (py_or (dict_get issue_dict "too_generic")
                                  (dict_get issue_dict "missing_impact"))
                 then rewrite_and_append section_label "Too generic"
                        original generic_instruction ;;;
                      ret true
                 else ret applied) ;;
              applied <-
                (if truthy (py_or (dict_get issue_dict "too_wordy")
                                  (dict_get issue_dict "too_long"))
                 then rewrite_and_append section_label "Too wordy"
                        original Instr.CONCISE_BULLET ;;;
                      ret true
                 else ret applied) ;;
              when (negb applied && truthy (VDict issue_dict))
                (rewrite_and_append section_label "Improve phrasing"
                   original generic_instruction)
        | _ => ret tt
        end) 0 issues
  | VDict issues =>
      if truthy (py_or (py_or (dict_get issues "too_generic")
                              (dict_get issues "too_long"))
                       (dict_get issues "missing_impact"))
      then
        let block := section_block items in
        when (Str.nonempty block)
          (rewrite_and_append section_label "Section too generic"
             block generic_instruction)
      else ret tt
  | _ => ret tt
  end.

Definition _process_education (items : list value) (issues : value) : M unit :=
  match issues with
  | VList issues =>
      for_enumerate (fun idx issue_dict =>
        match issue_dict with
        | VDict issue_dict =>
            original <- item_text items idx ;;
            if negb (Str.nonempty original) then ret tt
            else
              when (truthy (dict_get issue_dict "too_generic"))
                (rewrite_and_append "education" "Too generic"
                   original Instr.EDU_GENERIC) ;;;
              when (truthy (dict_get issue_dict "missing_dates"))
                (rewrite_and_append "education" "Missing dates"
                   original Instr.EDU_DATES) ;;;
              when (truthy (dict_get issue_dict "missing_gpa"))
                (rewrite_and_append "education" "GPA/CGPA formatting"
                   original Instr.EDU_GPA) ;;;
              when (truthy (py_or (dict_get issue_dict "too_wordy")
                                  (dict_get issue_dict "too_long")))
                (rewrite_and_append "education" "Too wordy"
                   original Instr.EDU_WORDY)
        | _ => ret tt
        end) 0 issues
  | VDict issues =>
      if truthy (py_or (dict_get issues "too_generic") (dict_get issues "too_long"))
      then
        let block := section_block items in
        when (Str.nonempty block)
          (rewrite_and_append "education" "Section needs standardization"
             block Instr.EDU_SECTION)
      else ret tt
  | _ => ret tt
  end.

Definition _process_skills (resume_text : dict) (issues : value) : M unit :=
  let original := _get_skills_text resume_text in
  if negb (Str.nonempty original) then ret tt
  else
    match issues with
    | VDict issues =>
        when (truthy (py_or (dict_get issues "too_generic")
                            (dict_get issues "missing_proficiency")))
          (let issue_text :=
             if truthy (dict_get issues "too_generic") then "Skills too generic"
             else "Missing proficiency levels" in
           rewrite_and_append "skills" issue_text original Instr.SKILLS)
    | _ => ret tt
    end.

Definition _process_summary (resume_text : dict) (issues : value) : M unit :=
  let original :=
    match dict_get resume_text "summary" with
    | VStr s => s
    | _ => ""
    end in
  if negb (Str.nonempty original) then ret tt
  else
    match issues with
    | VDict issues =>
        when (truthy (dict_get issues "too_generic"))
          (rewrite_and_append "summary" "Summary too generic"
             original Instr.SUMMARY_SPECIFIC) ;;;
        when (truthy (dict_get issues "too_long"))
          (rewrite_and_append "summary" "Summary too long"
             original Instr.SUMMARY_CONCISE) ;;;
        when (truthy (dict_get issues "missing_keywords"))
          (rewrite_and_append "summary" "Missing keywords"
             original Instr.KEYWORDS)
    | _ => ret tt
    end.

(** the body of [generate_resume_improvements] after the guard, on the
    list [suggestions] of the world *)
Definition generate_sections (analysis resume_text : dict) : M unit :=
  let exp_items := _get_items resume_text _EXPERIENCE_KEYS in
  exp_issues <- _get_section_issues analysis _EXPERIENCE_KEYS ;;
  when (truthy (VList exp_items) && is_not_None exp_issues)
    (_process_experience_like "experience" exp_items exp_issues) ;;;
  let intern_items := _get_items resume_text _INTERNSHIP_KEYS in
  intern_issues <- _get_section_issues analysis _INTERNSHIP_KEYS ;;
  when (truthy (VList intern_items) && is_not_None intern_issues)
    (_process_experience_like "internships" intern_items intern_issues) ;;;
  let edu_items := _get_items resume_text _EDUCATION_KEYS in
  edu_issues <- _get_section_issues analysis _EDUCATION_KEYS ;;
  when (truthy (VList edu_items) && is_not_None edu_issues)
    (_process_education edu_items edu_issues) ;;;
  let awards_items := _get_items resume_text _AWARDS_KEYS in
  awards_issues <- _get_section_issues analysis _AWARDS_KEYS ;;
  when (truthy (VList awards_items) && is_not_None awards_issues)
    (_process_simple_list_section "awards_achievements" awards_items
       awards_issues Instr.AWARDS) ;;;
  let por_items := _get_items resume_text _POR_KEYS in
  por_issues <- _get_section_issues analysis _POR_KEYS ;;
  when (truthy (VList por_items) && is_not_None por_issues)
    (_process_simple_list_section "positions_of_responsibility" por_items
       por_issues Instr.POR) ;;;
  let co_curr_items := _get_items resume_text _CO_CURR_KEYS in
  co_curr_issues <- _get_section_issues analysis _CO_CURR_KEYS ;;
  when (truthy (VList co_curr_items) && is_not_None co_curr_issues)
    (_process_simple_list_section "co_curricular" co_curr_items
       co_curr_issues Instr.CO_CURR) ;;;
  let extra_curr_items := _get_items resume_text _EXTRA_CURR_KEYS in
  extra_curr_issues <- _get_section_issues analysis _EXTRA_CURR_KEYS ;;
  when (truthy (VList extra_curr_items) && is_not_None extra_curr_issues)
    (_process_simple_list_section "extra_curricular" extra_curr_items
       extra_curr_issues Instr.EXTRA_CURR) ;;;
  skills_issues <- _get_section_issues analysis _SKILLS_KEYS ;;
  when (is_not_None skills_issues)
    (_process_skills resume_text skills_issues) ;;;
  summary_issues <- _get_section_issues analysis _SUMMARY_KEYS ;;
  when (is_not_None summary_issues)
    (_process_summary resume_text summary_issues).

(** [generate_resume_improvements(llm_client, analysis, resume_text)]:
    the list [suggestions] starts empty and is what is returned. *)
Definition generate_resume_improvements (analysis resume_text : option dict)
  : M (list ResumeSuggestion) :=
  fun w =>
    let w0 := mkWorld (llm_client w) (calls w) [] in
    if negb (dict_truthy analysis) || negb (dict_truthy resume_text) then
      Ok (suggestions w0, w0)
    else
      match generate_sections (dict_or_empty analysis)
              (dict_or_empty resume_text) w0 with
      | Ok (_, w') => Ok (suggestions w', w')
      | Raise e => Raise e
      end.

(** the attempts of a list, one after the other *)
Fixpoint run_attempts (l : list Spec.attempt) : M unit :=
  match l with
  | [] => ret tt
  | a :: l' =>
      rewrite_and_append (Spec.a_section a) (Spec.a_issue a) (Spec.a_text a)
        (Spec.a_instruction a) ;;;
      run_attempts l'
  end.

(** * Properties *)

(** ** Strings *)

Lemma nonempty_false_iff (s : string) : Str.nonempty s = false <-> s = "".
Proof.
  unfold Str.nonempty. rewrite negb_false_iff. apply String.eqb_eq.
Qed.

Lemma nonempty_true_iff (s : string) : Str.nonempty s = true <-> s <> "".
Proof.
  unfold Str.nonempty. rewrite negb_true_iff. apply String.eqb_neq.
Qed.

Lemma append_empty_r (s : string) : (s ++ "")%string = s.
Proof. induction s as [|c s IH]; simpl; [reflexivity | now rewrite IH]. Qed.

Lemma append_assoc (a b c : string) :
  ((a ++ b) ++ c)%string = (a ++ (b ++ c))%string.
Proof. induction a as [|x a IH]; simpl; [reflexivity | now rewrite IH]. Qed.

Lemma rev_append (a b : string) :
  Str.rev (a ++ b) = (Str.rev b ++ Str.rev a)%string.
Proof.
  induction a as [|x a IH]; simpl.
  - now rewrite append_empty_r.
  - now rewrite IH, append_assoc.
Qed.

Lemma all_space_append (a b : string) :
  Str.all_space (a ++ b) = Str.all_space a && Str.all_space b.
Proof.
  induction a as [|x a IH]; simpl; [reflexivity|].
  now rewrite IH, andb_assoc.
Qed.

Lemma all_space_rev (s : string) : Str.all_space (Str.rev s) = Str.all_space s.
Proof.
  induction s as [|c s IH]; simpl; [reflexivity|].
  rewrite all_space_append, IH. simpl. rewrite andb_true_r. apply andb_comm.
Qed.

Lemma lstrip_pad (pad s : string) :
  Str.all_space pad = true -> Str.lstrip (pad ++ s) = Str.lstrip s.
Proof.
  induction pad as [|c pad IH]; simpl; [reflexivity|].
  intros H. apply andb_true_iff in H. destruct H as [Hc Hp].
  rewrite Hc. now apply IH.
Qed.

Lemma lstrip_all_space (s : string) :
  Str.all_space s = true -> Str.lstrip s = "".
Proof.
  intros H. rewrite <- (append_empty_r s). now rewrite lstrip_pad.
Qed.

Lemma lstrip_append (s t : string) :
  Str.all_space s = false -> Str.lstrip (s ++ t) = (Str.lstrip s ++ t)%string.
Proof.
  induction s as [|c s IH]; simpl; [discriminate|].
  destruct (Str.is_space c); simpl; [exact IH | reflexivity].
Qed.

Lemma rstrip_pad (s pad : string) :
  Str.all_space pad = true -> Str.rstrip (s ++ pad) = Str.rstrip s.
Proof.
  intros H. unfold Str.rstrip. rewrite rev_append, lstrip_pad; [reflexivity|].
  now rewrite all_space_rev.
Qed.

(** whitespace around a string does not survive [strip] *)
Lemma strip_pad (pad1 s pad2 : string) :
  Str.all_space pad1 = true -> Str.all_space pad2 = true ->
  Str.strip (pad1 ++ s ++ pad2) = Str.strip s.
Proof.
  intros H1 H2. unfold Str.strip. rewrite lstrip_pad by exact H1.
  destruct (Str.all_space s) eqn:Hs.
  - rewrite (lstrip_all_space s Hs).
    rewrite lstrip_all_space; [reflexivity|].
    now rewrite all_space_append, Hs, H2.
  - rewrite lstrip_append by exact Hs. now apply rstrip_pad.
Qed.

Lemma upper_append (a b : string) :
  Str.upper (a ++ b) = (Str.upper a ++ Str.upper b)%string.
Proof. induction a as [|x a IH]; simpl; [reflexivity | now rewrite IH]. Qed.

Lemma is_space_upper_char (c : ascii) :
  Str.is_space (Str.upper_char c) = Str.is_space c.
Proof. destruct c as [[] [] [] [] [] [] [] []]; reflexivity. Qed.

Lemma lower_upper_char (c : ascii) :
  Str.lower_char (Str.upper_char c) = Str.lower_char c.
Proof. destruct c as [[] [] [] [] [] [] [] []]; reflexivity. Qed.

Lemma lstrip_upper (s : string) :
  Str.lstrip (Str.upper s) = Str.upper (Str.lstrip s).
Proof.
  induction s as [|c s IH]; simpl; [reflexivity|].
  rewrite is_space_upper_char. destruct (Str.is_space c); [exact IH | reflexivity].
Qed.

Lemma rev_upper (s : string) : Str.rev (Str.upper s) = Str.upper (Str.rev s).
Proof.
  induction s as [|c s IH]; simpl; [reflexivity|].
  now rewrite upper_append, IH.
Qed.

Lemma strip_upper (s : string) : Str.strip (Str.upper s) = Str.upper (Str.strip s).
Proof.
  unfold Str.strip, Str.rstrip.
  now rewrite lstrip_upper, rev_upper, lstrip_upper, rev_upper.
Qed.

Lemma lower_upper (s : string) : Str.lower (Str.upper s) = Str.lower s.
Proof.
  induction s as [|c s IH]; simpl; [reflexivity|].
  now rewrite lower_upper_char, IH.
Qed.

(** the change test does not see case *)
Lemma norm_upper (s : string) : norm (Str.upper s) = norm s.
Proof. unfold norm. now rewrite strip_upper, lower_upper. Qed.

(** the change test does not see surrounding whitespace *)
Lemma norm_pad (pad1 s pad2 : string) :
  Str.all_space pad1 = true -> Str.all_space pad2 = true ->
  norm (pad1 ++ s ++ pad2) = norm s.
Proof. intros H1 H2. unfold norm. now rewrite strip_pad. Qed.

Lemma norm_nonempty_arg (s : string) : norm s <> "" -> s <> "".
Proof. intros H E. subst s. now apply H. Qed.

(** ** Change filter *)

Lemma orig_norm_eq (original : option string) :
  Str.lower (Str.strip (match original with
                        | Some o => if Str.nonempty o then o else ""
                        | None => ""
                        end)) = norm (original_or_empty original).
Proof.
  destruct original as [o|]; simpl; [|reflexivity].
  destruct (Str.nonempty o) eqn:E; [reflexivity|].
  apply nonempty_false_iff in E. now subst o.
Qed.

Lemma append_if_changed_reject out sec iss (X : option string) (y : string) :
  norm y = "" \/ norm y = norm (original_or_empty X) ->
  append_if_changed out sec iss X (Some y) = out.
Proof.
  intros H. unfold append_if_changed.
  destruct (Str.nonempty y); simpl; [|reflexivity].
  rewrite orig_norm_eq. fold (norm y).
  destruct H as [H|H].
  - rewrite H. reflexivity.
  - rewrite H, String.eqb_refl, andb_false_r. reflexivity.
Qed.

Lemma append_if_changed_accept out sec iss (X : option string) (y : string) :
  norm y <> "" -> norm y <> norm (original_or_empty X) ->
  append_if_changed out sec iss X (Some y)
  = out ++ [mkResumeSuggestion sec iss X y].
Proof.
  intros H1 H2. unfold append_if_changed.
  assert (Hy : Str.nonempty y = true)
    by (apply nonempty_true_iff; now apply norm_nonempty_arg).
  rewrite Hy. simpl. rewrite orig_norm_eq. fold (norm y).
  apply nonempty_true_iff in H1. rewrite H1.
  apply String.eqb_neq in H2. rewrite H2. reflexivity.
Qed.

Lemma original_or_empty_eq (original : option string) :
  match original with
  | Some o => if Str.nonempty o then o else ""
  | None => ""
  end = original_or_empty original.
Proof.
  destruct original as [o|]; simpl; [|reflexivity].
  destruct (Str.nonempty o) eqn:E; [reflexivity|].
  apply nonempty_false_iff in E. now subst o.
Qed.

Lemma append_if_changed_with_reject (strip lower : string -> string)
    out sec iss (X : option string) (y : string) :
  lower (strip y) = "" \/ lower (strip y) = lower (strip (original_or_empty X)) ->
  append_if_changed_with strip lower out sec iss X (Some y) = out.
Proof.
  intros H. unfold append_if_changed_with.
  destruct (Str.nonempty y); simpl; [|reflexivity].
  rewrite original_or_empty_eq.
  destruct H as [H|H].
  - rewrite H. reflexivity.
  - rewrite H, String.eqb_refl, andb_false_r. reflexivity.
Qed.

Lemma append_if_changed_with_accept (strip lower : string -> string)
    out sec iss (X : option string) (y : string) :
  y <> "" ->
  lower (strip y) <> "" ->
  lower (strip y) <> lower (strip (original_or_empty X)) ->
  append_if_changed_with strip lower out sec iss X (Some y)
  = out ++ [mkResumeSuggestion sec iss X y].
Proof.
  intros Hy H1 H2. unfold append_if_changed_with.
  apply nonempty_true_iff in Hy. rewrite Hy. simpl.
  rewrite original_or_empty_eq.
  apply nonempty_true_iff in H1. rewrite H1.
  apply String.eqb_neq in H2. rewrite H2. reflexivity.
Qed.

(** C1: the change filter, whatever [str.strip] and [str.lower] compute
    on the strings at hand: it rejects a falsy candidate, rejects a candidate
    whose trimmed and lowercased form is empty or equal to that of the
    original (a [None] original counting as empty), and otherwise appends
    exactly one suggestion with the original and the candidate as given; so
    the original itself is rejected as a candidate, and so is every
    candidate that differs from it only in what trimming and lowercasing
    remove.  On ASCII text, where [Str.strip], [Str.lower] and [Str.upper]
    are the builtins, that covers the original in upper case between
    whitespace.  The filter of the handlers is this one at [Str.strip] and
    [Str.lower]. *)
Theorem change_filter_rule :
  forall (strip lower : string -> string)
         (out : list ResumeSuggestion) (sec iss : string) (X : option string),
    let normalise := fun s => lower (strip s) in
    let filter := append_if_changed_with strip lower out sec iss X in
    (* falsy candidate *)
    filter None = out
    /\ filter (Some "") = out
    (* normalised candidate empty, or the normalised original *)
    /\ (forall y, normalise y = "" \/ normalise y = normalise (original_or_empty X) ->
                  filter (Some y) = out)
    (* anything else is accepted, unnormalised *)
    /\ (forall y, y <> "" ->
                  normalise y <> "" ->
                  normalise y <> normalise (original_or_empty X) ->
                  filter (Some y) = out ++ [mkResumeSuggestion sec iss X y])
    (* the original itself, and what normalises to the same *)
    /\ (forall x, X = Some x ->
          filter (Some x) = out
          /\ forall y, normalise y = normalise x -> filter (Some y) = out)
    (* ASCII text: any casing, any surrounding whitespace *)
    /\ (forall x pad1 pad2,
          X = Some x ->
          Str.is_ascii x = true ->
          Str.all_space pad1 = true -> Str.all_space pad2 = true ->
          append_if_changed out sec iss X (Some (pad1 ++ x ++ pad2)%string) = out
          /\ append_if_changed out sec iss X
               (Some (pad1 ++ Str.upper x ++ pad2)%string) = out)
    /\ (forall Y,
          append_if_changed out sec iss X Y
          = append_if_changed_with Str.strip Str.lower out sec iss X Y).
Proof.
  intros strip lower out sec iss X normalise filter. unfold filter, normalise.
  split; [reflexivity|]. split; [reflexivity|].
  split; [apply append_if_changed_with_reject|].
  split; [apply append_if_changed_with_accept|].
  split; [|split].
  - intros x ->. split.
    + apply append_if_changed_with_reject. now right.
    + intros y Hy. apply append_if_changed_with_reject. right. exact Hy.
  - intros x pad1 pad2 -> _ H1 H2. split.
    + apply append_if_changed_reject. right. now apply norm_pad.
    + apply append_if_changed_reject. right. simpl.
      rewrite norm_pad by assumption. apply norm_upper.
  - reflexivity.
Qed.

(** ** Entry flattener *)

(** C4 as stated fails: a description with surrounding whitespace is not
    returned as it is, and a blank description yields to the next field. *)
Lemma description_not_returned_verbatim :
  (dict_get [("description", VStr " X ")] "description" = VStr " X "
   /\ _combine_entry_text (VDict [("description", VStr " X ")]) <> " X ")
  /\ (dict_get [("description", VStr ""); ("details", VStr "D")] "description" = VStr ""
      /\ _combine_entry_text (VDict [("description", VStr ""); ("details", VStr "D")]) <> "").
Proof.
  repeat split; simpl; discriminate.
Qed.

Lemma first_text_field_with_head (strip : string -> string) (entry : dict)
    (key : string) (keys : list string) (X : string) :
  dict_get entry key = VStr X -> strip X <> "" ->
  first_text_field_with strip entry (key :: keys) = Some (strip X).
Proof.
  intros Hget Hne. simpl. rewrite Hget.
  apply nonempty_true_iff in Hne. now rewrite Hne.
Qed.

Lemma first_text_field_instance (entry : dict) (keys : list string) :
  first_text_field entry keys = first_text_field_with Str.strip entry keys.
Proof.
  induction keys as [|key keys IH]; [reflexivity|].
  simpl. rewrite IH. reflexivity.
Qed.

Lemma combine_entry_text_instance (entry : value) :
  _combine_entry_text entry = _combine_entry_text_with Str.strip entry.
Proof.
  destruct entry; try reflexivity.
  all: unfold _combine_entry_text, _combine_entry_text_with;
    now rewrite first_text_field_instance.
Qed.

(** C4 (amended): whatever [str.strip] computes on the strings at hand,
    the flattener returns a string on every item, whatever its shape (the
    empty string on [None], a string as it is, the joined string elements of
    a list), and on a mapping whose [description] holds a string X that is
    not blank it returns X trimmed, whatever the other fields hold; so X
    itself when it is non-empty and trimming leaves it as it is.  The
    flattener of the handlers is this one at [Str.strip]. *)
Theorem flatten_total_description_first :
  forall strip : string -> string,
    (forall entry : value,
        exists s : string,
          _combine_entry_text_with strip entry = s
          /\ match entry with
             | VNone => s = ""
             | VStr x => s = x
             | VList l => s = Str.join Str.BULLET (only_strs l)
             | _ => True
             end)
    /\ (forall (d : dict) (X : string),
          dict_get d "description" = VStr X ->
          strip X <> "" ->
          _combine_entry_text_with strip (VDict d) = strip X)
    /\ (forall (d : dict) (X : string),
          dict_get d "description" = VStr X ->
          X <> "" -> strip X = X ->
          _combine_entry_text_with strip (VDict d) = X)
    /\ (forall entry : value,
          _combine_entry_text entry = _combine_entry_text_with Str.strip entry).
Proof.
  intros strip.
  assert (Hdesc : forall (d : dict) (X : string),
             dict_get d "description" = VStr X ->
             strip X <> "" ->
             _combine_entry_text_with strip (VDict d) = strip X).
  { intros d X Hget Hne. unfold _combine_entry_text_with.
    now rewrite (first_text_field_with_head strip d "description" _ X Hget Hne). }
  split; [|split; [|split]].
  - intros entry. exists (_combine_entry_text_with strip entry).
    split; [reflexivity|]. destruct entry; auto.
  - exact Hdesc.
  - intros d X Hget Hne Hstrip. rewrite <- Hstrip.
    apply Hdesc; [exact Hget | now rewrite Hstrip].
  - exact combine_entry_text_instance.
Qed.

(** ** Section resolver *)

Lemma get_items_skip (resume : dict) (k : string) (keys : list string) :
  (forall l, dict_get resume k <> VList l) ->
  _get_items resume (k :: keys) = _get_items resume keys.
Proof.
  intros H. simpl. destruct (dict_get resume k); try reflexivity.
  exfalso. now apply (H l).
Qed.

Lemma get_items_first (resume : dict) (pre : list string) (k : string)
    (post : list string) (items : list value) :
  (forall k', In k' pre -> forall l, dict_get resume k' <> VList l) ->
  dict_get resume k = VList items ->
  _get_items resume (pre ++ k :: post) = items.
Proof.
  induction pre as [|k0 pre IH]; intros Hpre Hk; simpl.
  - now rewrite Hk.
  - change (_get_items resume (k0 :: pre ++ k :: post) = items).
    rewrite get_items_skip by (apply Hpre; now left).
    apply IH; [|exact Hk]. intros k' Hin. apply Hpre. now right.
Qed.

Lemma get_items_none (resume : dict) (keys : list string) :
  (forall k, In k keys -> forall l, dict_get resume k <> VList l) ->
  _get_items resume keys = [].
Proof.
  induction keys as [|k keys IH]; intros H; [reflexivity|].
  rewrite get_items_skip by (apply H; now left).
  apply IH. intros k' Hin. apply H. now right.
Qed.

(** C5: item lookup returns the value under the first alias whose value
    is a list; aliases before it that hold something else do not stop the
    search; with no list under any alias the result is the empty list; and
    with lists under both [experience] and [work_experience] the one under
    [experience] is returned. *)
Theorem get_items_first_list_alias :
  (forall (resume : dict) (pre : list string) (k : string) (post : list string)
          (items : list value),
      (forall k', In k' pre -> forall l, dict_get resume k' <> VList l) ->
      dict_get resume k = VList items ->
      _get_items resume (pre ++ k :: post) = items)
  /\ (forall (resume : dict) (keys : list string),
        (forall k, In k keys -> forall l, dict_get resume k <> VList l) ->
        _get_items resume keys = [])
  /\ (forall (resume : dict) (exp work : list value),
        dict_get resume "experience" = VList exp ->
        dict_get resume "work_experience" = VList work ->
        _get_items resume _EXPERIENCE_KEYS = exp).
Proof.
  split; [|split].
  - exact get_items_first.
  - exact get_items_none.
  - intros resume exp work Hexp _.
    apply (get_items_first resume [] "experience"); [intros k' []|exact Hexp].
Qed.

(** ** The monad *)

Lemma bind_ext {A B} (m1 m2 : M A) (f g : A -> M B) :
  (forall w, m1 w = m2 w) -> (forall a w, f a w = g a w) ->
  forall w, bind m1 f w = bind m2 g w.
Proof.
  intros Hm Hf w. unfold bind. rewrite Hm.
  destruct (m2 w) as [[a w']|e]; [apply Hf | reflexivity].
Qed.

Lemma bind_ret_r_unit (m : M unit) (w : world) : bind m (fun _ => ret tt) w = m w.
Proof.
  unfold bind, ret. destruct (m w) as [[[] w']|e]; reflexivity.
Qed.

Lemma bind_assoc {A B C} (m : M A) (f : A -> M B) (g : B -> M C) (w : world) :
  bind (bind m f) g w = bind m (fun a => bind (f a) g) w.
Proof.
  unfold bind. destruct (m w) as [[a w']|e]; reflexivity.
Qed.

(** ** Running a list of attempts *)

Lemma run_attempts_app (l1 l2 : list Spec.attempt) (w : world) :
  run_attempts (l1 ++ l2) w = bind (run_attempts l1) (fun _ => run_attempts l2) w.
Proof.
  revert w. induction l1 as [|a l1 IH]; intros w; simpl.
  - reflexivity.
  - rewrite bind_assoc. apply bind_ext; [reflexivity|]. intros _ w'. apply IH.
Qed.

Lemma rewrite_and_append_ok (sec iss text instr : string) (w : world) :
  rewrite_and_append sec iss text instr w
  = Ok (tt, mkWorld (snd (llm_call (llm_client w) text instr))
              (calls w ++ [(text, instr)])
              (append_if_changed (suggestions w) sec iss (Some text)
                 (fst (llm_call (llm_client w) text instr)))).
Proof.
  unfold rewrite_and_append, bind, call_llm, _append_if_changed.
  destruct (llm_call (llm_client w) text instr) as [improved client']. reflexivity.
Qed.

(** the world after the attempts of a list *)
Lemma run_attempts_ok (l : list Spec.attempt) (w : world) :
  exists w', run_attempts l w = Ok (tt, w').
Proof.
  revert w. induction l as [|a l IH]; intros w; simpl.
  - now exists w.
  - unfold bind. rewrite rewrite_and_append_ok. apply IH.
Qed.

Lemma when_attempt (c : bool) (a : Spec.attempt) (w : world) :
  when c (rewrite_and_append (Spec.a_section a) (Spec.a_issue a) (Spec.a_text a)
            (Spec.a_instruction a)) w
  = run_attempts (if c then [a] else []) w.
Proof.
  destruct c; simpl; [|reflexivity]. now rewrite bind_ret_r_unit.
Qed.

Lemma when_attempt_then (c : bool) (a : Spec.attempt) (rest : M unit)
    (l : list Spec.attempt) :
  (forall w, rest w = run_attempts l w) ->
  forall w,
    bind (when c (rewrite_and_append (Spec.a_section a) (Spec.a_issue a)
                    (Spec.a_text a) (Spec.a_instruction a)))
         (fun _ => rest) w
    = run_attempts ((if c then [a] else []) ++ l) w.
Proof.
  intros H w. rewrite run_attempts_app.
  apply bind_ext; [apply when_attempt | intros _ w'; apply H].
Qed.

Lemma when_run (c : bool) (m : M unit) (l : list Spec.attempt) :
  (forall w, m w = run_attempts l w) ->
  forall w, when c m w = run_attempts (if c then l else []) w.
Proof.
  intros H w. destruct c; [apply H | reflexivity].
Qed.

(** ** Loops over the issue entries *)

Lemma for_enumerate_attempts (body : nat -> value -> M unit)
    (f : nat * value -> list Spec.attempt) :
  (forall idx x w, body idx x w = run_attempts (f (idx, x)) w) ->
  forall (l : list value) (k : nat) (w : world),
    for_enumerate body k l w
    = run_attempts (flat_map f (combine (seq k (length l)) l)) w.
Proof.
  intros Hbody l. induction l as [|x l IH]; intros k w; simpl.
  - reflexivity.
  - rewrite run_attempts_app. apply bind_ext; [apply Hbody|].
    intros _ w'. apply IH.
Qed.

(** the guard [idx < len(items)] keeps [items[idx]] from raising *)
Lemma item_text_ok (items : list value) (idx : nat) (w : world) :
  item_text items idx w = Ok (Spec.text_at items idx, w).
Proof.
  unfold item_text, Spec.text_at, bind, list_index.
  destruct (idx <? length items)%nat eqn:E.
  - apply Nat.ltb_lt in E. apply nth_error_Some in E.
    destruct (nth_error items idx) as [v|]; [reflexivity | contradiction].
  - apply Nat.ltb_ge in E. apply nth_error_None in E. rewrite E. reflexivity.
Qed.

Lemma truthy_py_or (a b : value) : truthy (py_or a b) = truthy a || truthy b.
Proof.
  unfold py_or. destruct (truthy a) eqn:E; simpl; [exact E | reflexivity].
Qed.

Lemma get_section_issues_ok (analysis : dict) (keys : list string) (w : world) :
  _get_section_issues analysis keys w = Ok (Spec.resolve_issues analysis keys, w).
Proof.
  induction keys as [|k keys IH]; simpl; [reflexivity|].
  unfold dict_in, dict_subscript.
  destruct (dict_find analysis k) as [v|]; [reflexivity | exact IH].
Qed.

(** ** Each handler performs the attempts of its part of the plan *)

Ltac flag_cases :=
  repeat match goal with
         | |- context [truthy (dict_get ?d ?k)] =>
             destruct (truthy (dict_get d k))
         end.

Lemma experience_item_flags (section text : string) (flags : dict) :
  Spec.experience_item section text flags
  = (if truthy (py_or (dict_get flags "no_metrics") (dict_get flags "missing_metrics"))
     then [Spec.mkAttempt section "No measurable impact" text Instr.ADD_METRICS]
     else [])
    ++ (if truthy (dict_get flags "weak_action_verbs")
        then [Spec.mkAttempt section "Weak action verbs" text Instr.STRONG_VERBS]
        else [])
    ++ (if truthy (dict_get flags "responsibility_over_achievement")
        then [Spec.mkAttempt section "Not achievement-oriented" text Instr.ACHIEVEMENT]
        else [])
    ++ (if truthy (py_or (dict_get flags "too_wordy") (dict_get flags "too_long"))
        then [Spec.mkAttempt section "Too wordy" text Instr.ONE_LINE]
        else [])
    ++ (if truthy (dict_get flags "missing_keywords")
        then [Spec.mkAttempt section "Missing keywords" text Instr.KEYWORDS]
        else []).
Proof.
  unfold Spec.experience_item, Spec.fired, Spec.EXPERIENCE_FLAGS, Spec.flag_set.
  rewrite !truthy_py_or. cbn [filter existsb fst snd].
  flag_cases; reflexivity.
Qed.

Lemma process_experience_like_attempts (section_label : string)
    (items : list value) (issues : value) (w : world) :
  _process_experience_like section_label items issues w
  = run_attempts (Spec.experience_like section_label items issues) w.
Proof.
  destruct issues as [| b | z | s | l | l | d]; try reflexivity.
  unfold _process_experience_like, Spec.experience_like, Spec.per_item.
  apply for_enumerate_attempts. clear w. intros idx x w. cbn [fst snd].
  destruct x as [| b | z | s | l' | l' | flags]; try reflexivity.
  unfold bind at 1. rewrite item_text_ok.
  destruct (Str.nonempty (Spec.text_at items idx)); [|reflexivity].
  cbn [negb]. rewrite experience_item_flags.
  repeat (apply (when_attempt_then _ (Spec.mkAttempt _ _ _ _)); intros ?).
  apply (when_attempt _ (Spec.mkAttempt _ _ _ _)).
Qed.

Lemma education_item_flags (text : string) (flags : dict) :
  Spec.education_item text flags
  = (if truthy (dict_get flags "too_generic")
     then [Spec.mkAttempt "education" "Too generic" text Instr.EDU_GENERIC]
     else [])
    ++ (if truthy (dict_get flags "missing_dates")
        then [Spec.mkAttempt "education" "Missing dates" text Instr.EDU_DATES]
        else [])
    ++ (if truthy (dict_get flags "missing_gpa")
        then [Spec.mkAttempt "education" "GPA/CGPA formatting" text Instr.EDU_GPA]
        else [])
    ++ (if truthy (py_or (dict_get flags "too_wordy") (dict_get flags "too_long"))
        then [Spec.mkAttempt "education" "Too wordy" text Instr.EDU_WORDY]
        else []).
Proof.
  unfold Spec.education_item, Spec.fired, Spec.EDUCATION_FLAGS, Spec.flag_set.
  rewrite !truthy_py_or. cbn [filter existsb fst snd].
  flag_cases; reflexivity.
Qed.

Lemma whole_section_attempts (section label instruction : string)
    (names : list string) (items : list value) (flags : dict) (c : bool) :
  c = Spec.flag_set flags names ->
  forall w,
    (if c
     then when (Str.nonempty (section_block items))
            (rewrite_and_append section label (section_block items) instruction)
     else ret tt) w
    = run_attempts (Spec.whole_section section label instruction names items flags) w.
Proof.
  intros -> w. unfold Spec.whole_section.
  destruct (Spec.flag_set flags names); [|reflexivity].
  cbv zeta.
  apply (when_attempt _ (Spec.mkAttempt section label (section_block items) instruction)).
Qed.

Lemma process_education_attempts (items : list value) (issues : value) (w : world) :
  _process_education items issues w = run_attempts (Spec.education items issues) w.
Proof.
  destruct issues as [| b | z | s | l | l | d]; try reflexivity.
  - unfold _process_education, Spec.education, Spec.per_item.
    apply for_enumerate_attempts. clear w. intros idx x w. cbn [fst snd].
    destruct x as [| b | z | s | l' | l' | flags]; try reflexivity.
    unfold bind at 1. rewrite item_text_ok.
    destruct (Str.nonempty (Spec.text_at items idx)); [|reflexivity].
    cbn [negb]. rewrite education_item_flags.
    repeat (apply (when_attempt_then _ (Spec.mkAttempt _ _ _ _)); intros ?).
    apply (when_attempt _ (Spec.mkAttempt _ _ _ _)).
  - unfold _process_education, Spec.education. cbv zeta.
    apply whole_section_attempts.
    unfold Spec.flag_set. rewrite truthy_py_or. cbn [existsb].
    now rewrite orb_false_r.
Qed.

Lemma simple_list_item_flags (section generic text : string) (flags : dict) :
  Spec.simple_list_item section generic text flags
  = let generic_fired :=
      truthy (py_or (dict_get flags "too_generic") (dict_get flags "missing_impact")) in
    let wordy_fired :=
      truthy (py_or (dict_get flags "too_wordy") (dict_get flags "too_long")) in
    (if generic_fired then [Spec.mkAttempt section "Too generic" text generic] else [])
    ++ (if wordy_fired
        then [Spec.mkAttempt section "Too wordy" text Instr.CONCISE_BULLET] else [])
    ++ (if negb (generic_fired || wordy_fired) && truthy (VDict flags)
        then [Spec.mkAttempt section "Improve phrasing" text generic] else []).
Proof.
  unfold Spec.simple_list_item, Spec.fired, Spec.SIMPLE_LIST_FLAGS, Spec.flag_set.
  rewrite !truthy_py_or. cbn [filter existsb fst snd].
  flag_cases; cbn [orb negb andb app map Spec.to_attempt fst snd];
    try reflexivity; destruct (truthy (VDict flags)); reflexivity.
Qed.

Lemma process_simple_list_section_attempts (section_label : string)
    (items : list value) (issues : value) (generic_instruction : string)
    (w : world) :
  _process_simple_list_section section_label items issues generic_instruction w
  = run_attempts (Spec.simple_list section_label generic_instruction items issues) w.
Proof.
  destruct issues as [| b | z | s | l | l | d]; try reflexivity.
  - unfold _process_simple_list_section, Spec.simple_list, Spec.per_item.
    apply for_enumerate_attempts. clear w. intros idx x w. cbn [fst snd].
    destruct x as [| b | z | s | l' | l' | flags]; try reflexivity.
    unfold bind at 1. rewrite item_text_ok.
    destruct (Str.nonempty (Spec.text_at items idx)); [|reflexivity].
    cbn [negb]. rewrite simple_list_item_flags. cbv zeta.
    destruct (truthy (py_or (dict_get flags "too_generic")
                            (dict_get flags "missing_impact")));
      destruct (truthy (py_or (dict_get flags "too_wordy")
                              (dict_get flags "too_long")));
      destruct (truthy (VDict flags));
      cbn [orb negb andb app run_attempts when Spec.a_section Spec.a_issue
             Spec.a_text Spec.a_instruction];
      repeat (progress (unfold bind, ret; cbn [orb negb andb when];
                        rewrite ?rewrite_and_append_ok));
      reflexivity.
  - unfold _process_simple_list_section, Spec.simple_list. cbv zeta.
    apply whole_section_attempts.
    unfold Spec.flag_set. rewrite !truthy_py_or. cbn [existsb].
    now rewrite orb_false_r, orb_assoc.
Qed.

Lemma process_skills_attempts (resume_text : dict) (issues : value) (w : world) :
  _process_skills resume_text issues w
  = run_attempts (Spec.skills resume_text issues) w.
Proof.
  unfold _process_skills, Spec.skills. cbv zeta.
  destruct (Str.nonempty (_get_skills_text resume_text)); cbn [negb andb].
  - destruct issues as [| b | z | s | l | l | flags]; try reflexivity.
    unfold Spec.flag_set. rewrite truthy_py_or. cbn [existsb].
    rewrite orb_false_r.
    destruct (truthy (dict_get flags "too_generic") ||
              truthy (dict_get flags "missing_proficiency")); [|reflexivity].
    cbn [when run_attempts Spec.a_section Spec.a_issue Spec.a_text
           Spec.a_instruction].
    now rewrite bind_ret_r_unit.
  - destruct issues; reflexivity.
Qed.

Lemma summary_flags (text : string) (flags : dict) :
  map (Spec.to_attempt "summary" text) (Spec.fired flags Spec.SUMMARY_FLAGS)
  = (if truthy (dict_get flags "too_generic")
     then [Spec.mkAttempt "summary" "Summary too generic" text Instr.SUMMARY_SPECIFIC]
     else [])
    ++ (if truthy (dict_get flags "too_long")
        then [Spec.mkAttempt "summary" "Summary too long" text Instr.SUMMARY_CONCISE]
        else [])
    ++ (if truthy (dict_get flags "missing_keywords")
        then [Spec.mkAttempt "summary" "Missing keywords" text Instr.KEYWORDS]
        else []).
Proof.
  unfold Spec.fired, Spec.SUMMARY_FLAGS, Spec.flag_set.
  cbn [filter existsb fst snd].
  flag_cases; reflexivity.
Qed.

Lemma process_summary_attempts (resume_text : dict) (issues : value) (w : world) :
  _process_summary resume_text issues w
  = run_attempts (Spec.summary resume_text issues) w.
Proof.
  unfold _process_summary, Spec.summary. cbv zeta.
  destruct (dict_get resume_text "summary") as [| b | z | text | l | l | d];
    try reflexivity.
  destruct issues as [| b | z | s | l | l | flags];
    try (destruct (Str.nonempty text); reflexivity).
  destruct (Str.nonempty text); [|reflexivity].
  cbn [negb]. rewrite summary_flags.
  repeat (apply (when_attempt_then _ (Spec.mkAttempt _ _ _ _)); intros ?).
  apply (when_attempt _ (Spec.mkAttempt _ _ _ _)).
Qed.

(** the body of the entry point performs the attempts of the plan *)
Lemma generate_sections_attempts (analysis resume_text : dict) (w : world) :
  generate_sections analysis resume_text w
  = run_attempts (Spec.plan analysis resume_text) w.
Proof.
  unfold generate_sections, Spec.plan, Spec.SECTIONS.
  cbn [flat_map]. unfold Spec.section_attempts. cbn [fst snd].
  cbv zeta. rewrite app_nil_r.
  revert w.
  repeat (intro; unfold bind at 1; rewrite get_section_issues_ok;
          rewrite run_attempts_app; apply bind_ext;
          [ apply when_run; intro;
            first [ apply process_experience_like_attempts
                  | apply process_education_attempts
                  | apply process_simple_list_section_attempts
                  | apply process_skills_attempts
                  | apply process_summary_attempts ]
          | intros _ ]).
  intro. unfold bind at 1. rewrite get_section_issues_ok.
  apply when_run. apply process_summary_attempts.
Qed.

(** ** What running a plan leaves behind *)

Lemma append_if_changed_cases out sec iss (X : option string) (Y : option string) :
  append_if_changed out sec iss X Y = out
  \/ exists y, Y = Some y /\ y <> "" /\ norm y <> ""
               /\ norm y <> norm (original_or_empty X)
               /\ append_if_changed out sec iss X Y
                  = out ++ [mkResumeSuggestion sec iss X y].
Proof.
  destruct Y as [y|]; [|now left].
  destruct (String.eqb (norm y) "") eqn:E1.
  { left. apply append_if_changed_reject. left. now apply String.eqb_eq. }
  destruct (String.eqb (norm y) (norm (original_or_empty X))) eqn:E2.
  { left. apply append_if_changed_reject. right. now apply String.eqb_eq. }
  apply String.eqb_neq in E1, E2.
  right. exists y. repeat split; try assumption.
  - now apply norm_nonempty_arg.
  - now apply append_if_changed_accept.
Qed.

(** running a plan: it does not raise, the oracle is called once per attempt
    in the order of the plan, and the suggestions appended are well formed
    and come in the order of the attempts that yielded them *)
Lemma run_attempts_spec (l : list Spec.attempt) :
  Forall (fun a => Spec.a_text a <> "") l ->
  forall w, exists w' extra,
    run_attempts l w = Ok (tt, w')
    /\ calls w' = calls w ++ map Spec.call_of l
    /\ suggestions w' = suggestions w ++ extra
    /\ Spec.subseq (map Spec.head_of_suggestion extra) (map Spec.head_of_attempt l)
    /\ Forall Spec.well_formed extra.
Proof.
  induction l as [|a l IH]; intros Hl w.
  - exists w, []. simpl. rewrite !app_nil_r. repeat split; constructor.
  - inversion Hl as [|? ? Ha Hl']; subst.
    cbn [run_attempts]. unfold bind. rewrite rewrite_and_append_ok.
    set (r := llm_call (llm_client w) (Spec.a_text a) (Spec.a_instruction a)).
    set (w1 := mkWorld _ _ _).
    destruct (IH Hl' w1) as (w' & extra & Hrun & Hcalls & Hsug & Hsub & Hwf).
    destruct (append_if_changed_cases (suggestions w) (Spec.a_section a)
                (Spec.a_issue a) (Some (Spec.a_text a)) (fst r))
      as [Hrej | (y & Hy & Hne & Hn1 & Hn2 & Hacc)].
    + exists w', extra. repeat split.
      * exact Hrun.
      * rewrite Hcalls. unfold w1. cbn [calls map]. now rewrite <- app_assoc.
      * rewrite Hsug. unfold w1. cbn [suggestions]. now rewrite Hrej.
      * cbn [map]. now constructor.
      * exact Hwf.
    + exists w', (mkResumeSuggestion (Spec.a_section a) (Spec.a_issue a)
                    (Some (Spec.a_text a)) y :: extra).
      repeat split.
      * exact Hrun.
      * rewrite Hcalls. unfold w1. cbn [calls map]. now rewrite <- app_assoc.
      * rewrite Hsug. unfold w1. cbn [suggestions]. rewrite Hacc.
        now rewrite <- app_assoc.
      * cbn [map]. now constructor.
      * constructor; [|exact Hwf].
        unfold Spec.well_formed. cbn. repeat split; try assumption.
        exists (Spec.a_text a). now split.
Qed.

(** ** Every attempt of the plan has a text to rewrite *)

Lemma Forall_flat_map_intro {A B} (P : B -> Prop) (f : A -> list B) (l : list A) :
  (forall x, In x l -> Forall P (f x)) -> Forall P (flat_map f l).
Proof.
  induction l as [|x l IH]; intros H; simpl; [constructor|].
  apply Forall_app. split; [apply H; now left | apply IH; intros; apply H; now right].
Qed.

Lemma Forall_map_to_attempt (section text : string) (rows : list Spec.row) :
  text <> "" ->
  Forall (fun a => Spec.a_text a <> "") (map (Spec.to_attempt section text) rows).
Proof.
  intros H. induction rows; simpl; constructor; assumption.
Qed.

Lemma per_item_texts (items issues : list value)
    (item : string -> dict -> list Spec.attempt) :
  (forall text flags, text <> "" ->
                      Forall (fun a => Spec.a_text a <> "") (item text flags)) ->
  Forall (fun a => Spec.a_text a <> "") (Spec.per_item items issues item).
Proof.
  intros H. unfold Spec.per_item. apply Forall_flat_map_intro.
  intros [idx x] _. cbn [fst snd].
  destruct x; try constructor.
  destruct (Str.nonempty (Spec.text_at items idx)) eqn:E; [|constructor].
  apply H. now apply nonempty_true_iff.
Qed.

Lemma whole_section_texts (section label instruction : string)
    (names : list string) (items : list value) (flags : dict) :
  Forall (fun a => Spec.a_text a <> "")
    (Spec.whole_section section label instruction names items flags).
Proof.
  unfold Spec.whole_section.
  destruct (Spec.flag_set flags names); [|constructor].
  cbv zeta. destruct (Str.nonempty (section_block items)) eqn:E; constructor.
  - now apply nonempty_true_iff.
  - constructor.
Qed.

Lemma section_attempts_texts (analysis document : dict)
    (s : string * list string * Spec.shape) :
  Forall (fun a => Spec.a_text a <> "") (Spec.section_attempts analysis document s).
Proof.
  destruct s as [[label keys] shape]. unfold Spec.section_attempts. cbn [fst snd].
  cbv zeta.
  set (issues := Spec.resolve_issues analysis keys).
  set (items := _get_items document keys).
  destruct shape.
  - destruct (truthy (VList items) && is_not_None issues); [|constructor].
    unfold Spec.experience_like. destruct issues; try constructor.
    apply per_item_texts. intros. now apply Forall_map_to_attempt.
  - destruct (truthy (VList items) && is_not_None issues); [|constructor].
    unfold Spec.education. destruct issues; try constructor.
    + apply per_item_texts. intros. now apply Forall_map_to_attempt.
    + apply whole_section_texts.
  - destruct (truthy (VList items) && is_not_None issues); [|constructor].
    unfold Spec.simple_list. destruct issues; try constructor.
    + apply per_item_texts. intros text flags Ht. unfold Spec.simple_list_item.
      destruct (Spec.fired flags (Spec.SIMPLE_LIST_FLAGS generic_instruction)).
      * destruct (truthy (VDict flags)); repeat constructor. exact Ht.
      * now apply Forall_map_to_attempt.
    + apply whole_section_texts.
  - destruct (is_not_None issues); [|constructor].
    unfold Spec.skills. cbv zeta. destruct issues; try constructor.
    destruct (Str.nonempty (_get_skills_text document)) eqn:E; cbn [andb];
      [|constructor].
    destruct (Spec.flag_set d _); repeat constructor.
    now apply nonempty_true_iff.
  - destruct (is_not_None issues); [|constructor].
    unfold Spec.summary.
    destruct (dict_get document "summary"); try constructor.
    destruct issues; try constructor.
    destruct (Str.nonempty s) eqn:E; [|constructor].
    apply Forall_map_to_attempt. now apply nonempty_true_iff.
Qed.

Lemma plan_texts (analysis document : dict) :
  Forall (fun a => Spec.a_text a <> "") (Spec.plan analysis document).
Proof.
  unfold Spec.plan. apply Forall_flat_map_intro.
  intros s _. apply section_attempts_texts.
Qed.

(** ** Every attempt of a section carries the label of the section *)

Lemma per_item_Forall (P : Spec.attempt -> Prop) (items issues : list value)
    (item : string -> dict -> list Spec.attempt) :
  (forall text flags, Forall P (item text flags)) ->
  Forall P (Spec.per_item items issues item).
Proof.
  intros H. unfold Spec.per_item. apply Forall_flat_map_intro.
  intros [idx x] _. cbn [fst snd].
  destruct x; try constructor.
  destruct (Str.nonempty (Spec.text_at items idx)); [apply H | constructor].
Qed.

Lemma Forall_map_to_attempt_section (section text : string) (rows : list Spec.row) :
  Forall (fun a => Spec.a_section a = section)
    (map (Spec.to_attempt section text) rows).
Proof. induction rows; simpl; constructor; auto. Qed.

Lemma whole_section_label (section label instruction : string)
    (names : list string) (items : list value) (flags : dict) :
  Forall (fun a => Spec.a_section a = section)
    (Spec.whole_section section label instruction names items flags).
Proof.
  unfold Spec.whole_section.
  destruct (Spec.flag_set flags names); [|constructor].
  cbv zeta. destruct (Str.nonempty (section_block items)); repeat constructor.
Qed.

Lemma section_attempts_label (analysis document : dict)
    (s : string * list string * Spec.shape) :
  In s Spec.SECTIONS ->
  Forall (fun a => Spec.a_section a = fst (fst s))
    (Spec.section_attempts analysis document s).
Proof.
  intros Hin. unfold Spec.section_attempts. cbv zeta.
  set (issues := Spec.resolve_issues analysis (snd (fst s))).
  set (items := _get_items document (snd (fst s))).
  destruct s as [[label keys] shape]. cbn [fst snd] in *.
  destruct shape.
  - destruct (truthy (VList items) && is_not_None issues); [|constructor].
    unfold Spec.experience_like. destruct issues; try constructor.
    apply per_item_Forall. intros. apply Forall_map_to_attempt_section.
  - assert (label = "education") as ->.
    { unfold Spec.SECTIONS in Hin. cbn [In] in Hin.
      repeat (destruct Hin as [Hin|Hin]; [congruence|]). contradiction. }
    destruct (truthy (VList items) && is_not_None issues); [|constructor].
    unfold Spec.education. destruct issues; try constructor.
    + apply per_item_Forall. intros. apply Forall_map_to_attempt_section.
    + apply whole_section_label.
  - destruct (truthy (VList items) && is_not_None issues); [|constructor].
    unfold Spec.simple_list. destruct issues; try constructor.
    + apply per_item_Forall. intros text flags. unfold Spec.simple_list_item.
      destruct (Spec.fired flags (Spec.SIMPLE_LIST_FLAGS generic_instruction)).
      * destruct (truthy (VDict flags)); repeat constructor.
      * apply Forall_map_to_attempt_section.
    + apply whole_section_label.
  - assert (label = "skills") as ->.
    { unfold Spec.SECTIONS in Hin. cbn [In] in Hin.
      repeat (destruct Hin as [Hin|Hin]; [congruence|]). contradiction. }
    destruct (is_not_None issues); [|constructor].
    unfold Spec.skills. cbv zeta. destruct issues; try constructor.
    destruct (Str.nonempty (_get_skills_text document) && Spec.flag_set d _);
      repeat constructor.
  - assert (label = "summary") as ->.
    { unfold Spec.SECTIONS in Hin. cbn [In] in Hin.
      repeat (destruct Hin as [Hin|Hin]; [congruence|]). contradiction. }
    destruct (is_not_None issues); [|constructor].
    unfold Spec.summary.
    destruct (dict_get document "summary"); try constructor.
    destruct issues; try constructor.
    destruct (Str.nonempty s); [|constructor].
    apply Forall_map_to_attempt_section.
Qed.

(** ** Order *)

Lemma subseq_map {A B} (f : A -> B) (sub l : list A) :
  Spec.subseq sub l -> Spec.subseq (map f sub) (map f l).
Proof. intros H. induction H; simpl; constructor; assumption. Qed.

Lemma subseq_Forall {A} (P : A -> Prop) (sub l : list A) :
  Spec.subseq sub l -> Forall P l -> Forall P sub.
Proof.
  intros H. induction H; intros HF; [constructor| |];
    inversion HF; subst; [constructor|]; auto.
Qed.

Lemma subseq_sorted (sub l : list nat) :
  Spec.subseq sub l -> StronglySorted le l -> StronglySorted le sub.
Proof.
  intros H. induction H; intros HS; [constructor| |];
    inversion HS; subst; auto.
  constructor; [auto|]. now apply (subseq_Forall _ sub l).
Qed.

Lemma sorted_app (l1 l2 : list nat) :
  StronglySorted le l1 -> StronglySorted le l2 ->
  (forall a b, In a l1 -> In b l2 -> a <= b) ->
  StronglySorted le (l1 ++ l2).
Proof.
  induction l1 as [|x l1 IH]; intros H1 H2 H; simpl; [exact H2|].
  inversion H1; subst. constructor.
  - apply IH; auto. intros a b Ha Hb. apply H; [now right | exact Hb].
  - apply Forall_app. split; [assumption|].
    apply Forall_forall. intros b Hb. apply H; [now left | exact Hb].
Qed.

Lemma sorted_constant (k : nat) (l : list nat) :
  Forall (fun a => a = k) l -> StronglySorted le l.
Proof.
  induction l as [|x l IH]; intros H; [constructor|].
  inversion H; subst. constructor; [auto|].
  eapply Forall_impl; [|eassumption]. intros a ->. constructor.
Qed.

Lemma sorted_flat_map {A B} (g : B -> nat) (h : A -> nat) (f : A -> list B)
    (xs : list A) :
  (forall x, In x xs -> Forall (fun b => g b = h x) (f x)) ->
  StronglySorted le (map h xs) ->
  StronglySorted le (map g (flat_map f xs)).
Proof.
  induction xs as [|x xs IH]; intros Hf Hs; simpl; [constructor|].
  cbn [map] in Hs. inversion Hs as [|? ? Hs' Hle]; subst.
  rewrite map_app. apply sorted_app.
  - apply (sorted_constant (h x)). apply Forall_map. apply Hf. now left.
  - apply IH; [|exact Hs']. intros x' Hin. apply Hf. now right.
  - intros a b Ha Hb.
    apply in_map_iff in Ha. destruct Ha as (a' & <- & Ha').
    apply in_map_iff in Hb. destruct Hb as (b' & <- & Hb').
    apply in_flat_map in Hb'. destruct Hb' as (x' & Hx' & Hb').
    assert (E1 : g a' = h x).
    { assert (HF := Hf x (or_introl eq_refl)).
      rewrite Forall_forall in HF. now apply HF. }
    assert (E2 : g b' = h x').
    { assert (HF := Hf x' (or_intror Hx')).
      rewrite Forall_forall in HF. now apply HF. }
    rewrite E1, E2. rewrite Forall_forall in Hle. apply Hle.
    now apply in_map.
Qed.

Lemma plan_sections_sorted (analysis document : dict) :
  StronglySorted le
    (map (fun a => Spec.rank (Spec.a_section a)) (Spec.plan analysis document)).
Proof.
  unfold Spec.plan.
  apply (sorted_flat_map _ (fun s => Spec.rank (fst (fst s)))).
  - intros s Hin. eapply Forall_impl; [|apply (section_attempts_label _ _ s Hin)].
    intros a ->. reflexivity.
  - vm_compute. repeat constructor.
Qed.

(** ** The entry point *)

Lemma generate_runs_plan (analysis resume_text : dict) (w : world) :
  analysis <> [] -> resume_text <> [] ->
  generate_resume_improvements (Some analysis) (Some resume_text) w
  = match run_attempts (Spec.plan analysis resume_text)
            (mkWorld (llm_client w) (calls w) []) with
    | Ok (_, w') => Ok (suggestions w', w')
    | Raise e => Raise e
    end.
Proof.
  intros Ha Hr. unfold generate_resume_improvements.
  destruct analysis; [contradiction|]. destruct resume_text; [contradiction|].
  cbn [dict_truthy negb orb dict_or_empty].
  now rewrite generate_sections_attempts.
Qed.

Lemma generate_guard (analysis resume_text : option dict) (w : world) :
  dict_truthy analysis = false \/ dict_truthy resume_text = false ->
  generate_resume_improvements analysis resume_text w
  = Ok ([], mkWorld (llm_client w) (calls w) []).
Proof.
  intros H. unfold generate_resume_improvements.
  destruct H as [H|H]; rewrite H; cbn [negb orb]; [reflexivity|].
  now rewrite orb_true_r.
Qed.

Lemma dict_truthy_true (d : option dict) :
  dict_truthy d = true -> exists d', d = Some d' /\ d' <> [].
Proof.
  destruct d as [[|b d]|]; try discriminate.
  intros _. exists (b :: d). split; [reflexivity | discriminate].
Qed.

(** C3: with an analysis or a document that is [None] or empty the
    entry point returns the empty list at once: it does not raise, calls the
    oracle not once and leaves the client as it was. *)
Theorem generate_empty_input :
  forall (analysis resume_text : option dict) (w : world),
    (analysis = None \/ analysis = Some []) \/
    (resume_text = None \/ resume_text = Some []) ->
    exists w',
      generate_resume_improvements analysis resume_text w = Ok ([], w')
      /\ calls w' = calls w
      /\ llm_client w' = llm_client w.
Proof.
  intros analysis resume_text w H.
  exists (mkWorld (llm_client w) (calls w) []). repeat split.
  apply generate_guard.
  destruct H as [[-> | ->] | [-> | ->]]; auto.
Qed.

(** C2: whatever the document, the analysis and the oracle, the entry
    point returns, and every suggestion it returns has a non-empty improved
    text whose trimmed and lowercased form differs from that of its original
    text, and a non-empty original text; every oracle call it makes is on a
    non-empty text. *)
Theorem generate_output_invariant :
  forall (analysis resume_text : option dict) (w : world),
  exists out w' new_calls,
    generate_resume_improvements analysis resume_text w = Ok (out, w')
    /\ Forall Spec.well_formed out
    /\ calls w' = calls w ++ new_calls
    /\ Forall (fun c => fst c <> "") new_calls.
Proof.
  intros analysis resume_text w.
  destruct (dict_truthy analysis) eqn:Ea.
  2:{ exists [], (mkWorld (llm_client w) (calls w) []), [].
      rewrite generate_guard by now left.
      cbn [calls]. rewrite app_nil_r. repeat split; constructor. }
  destruct (dict_truthy resume_text) eqn:Er.
  2:{ exists [], (mkWorld (llm_client w) (calls w) []), [].
      rewrite generate_guard by now right.
      cbn [calls]. rewrite app_nil_r. repeat split; constructor. }
  apply dict_truthy_true in Ea, Er.
  destruct Ea as (a & -> & Ha). destruct Er as (r & -> & Hr).
  rewrite generate_runs_plan by assumption.
  destruct (run_attempts_spec (Spec.plan a r) (plan_texts a r)
              (mkWorld (llm_client w) (calls w) []))
    as (w' & extra & Hrun & Hcalls & Hsug & _ & Hwf).
  rewrite Hrun. exists (suggestions w'), w', (map Spec.call_of (Spec.plan a r)).
  repeat split.
  - rewrite Hsug. exact Hwf.
  - exact Hcalls.
  - apply Forall_map. exact (plan_texts a r).
Qed.

(** C6: on a non-empty analysis and document the entry point performs
    the attempts of the plan, which lists the sections in their fixed order,
    within a section the issue entries by index and within an item the flags
    in the order of the handler's table: the oracle is called once per
    attempt in that order, the suggestions returned are, in that order, those
    of the attempts the change filter let through, and so their section
    labels follow the fixed section order. *)
Theorem generate_order :
  forall (analysis resume_text : dict) (w : world),
    analysis <> [] -> resume_text <> [] ->
    exists out w',
      generate_resume_improvements (Some analysis) (Some resume_text) w
      = Ok (out, w')
      /\ run_attempts (Spec.plan analysis resume_text)
           (mkWorld (llm_client w) (calls w) []) = Ok (tt, w')
      /\ out = suggestions w'
      /\ calls w' = calls w ++ map Spec.call_of (Spec.plan analysis resume_text)
      /\ Spec.subseq (map Spec.head_of_suggestion out)
           (map Spec.head_of_attempt (Spec.plan analysis resume_text))
      /\ StronglySorted le (map (fun s => Spec.rank (section s)) out).
Proof.
  intros analysis resume_text w Ha Hr.
  rewrite generate_runs_plan by assumption.
  destruct (run_attempts_spec (Spec.plan analysis resume_text)
              (plan_texts analysis resume_text)
              (mkWorld (llm_client w) (calls w) []))
    as (w' & extra & Hrun & Hcalls & Hsug & Hsub & _).
  rewrite Hrun. exists (suggestions w'), w'.
  cbn [suggestions app] in Hsug. rewrite Hsug.
  repeat split; try assumption.
  apply (subseq_sorted _
           (map (fun a => Spec.rank (Spec.a_section a))
              (Spec.plan analysis resume_text)));
    [|apply plan_sections_sorted].
  apply (subseq_map (fun h : string * string * option string =>
                       Spec.rank (fst (fst h)))) in Hsub.
  rewrite !map_map in Hsub. exact Hsub.
Qed.

(** ** One issue entry at a time *)

Lemma enumerate_flat_map_app {B} (g : nat * value -> list B) (l1 l2 : list value) :
  forall k,
    flat_map g (combine (seq k (length (l1 ++ l2))) (l1 ++ l2))
    = flat_map g (combine (seq k (length l1)) l1)
      ++ flat_map g (combine (seq (k + length l1) (length l2)) l2).
Proof.
  induction l1 as [|x l1 IH]; intros k; simpl.
  - now rewrite Nat.add_0_r.
  - rewrite IH, Nat.add_succ_r. now rewrite app_assoc.
Qed.

(** the attempts of the issue entry [x] at index [idx] *)
Lemma per_item_snoc (items pre : list value) (x : value)
    (item : string -> dict -> list Spec.attempt) :
  Spec.per_item items (pre ++ [x]) item
  = Spec.per_item items pre item
    ++ match x with
       | VDict flags =>
           if Str.nonempty (Spec.text_at items (length pre))
           then item (Spec.text_at items (length pre)) flags
           else []
       | _ => []
       end.
Proof.
  unfold Spec.per_item. rewrite enumerate_flat_map_app.
  cbn [length seq combine flat_map fst snd plus]. now rewrite app_nil_r.
Qed.

(** entries at indices past the items contribute no attempt *)
Lemma per_item_out_of_range (items : list value)
    (item : string -> dict -> list Spec.attempt) (l : list value) :
  forall k,
    length items <= k ->
    flat_map
      (fun p : nat * value =>
         match snd p with
         | VDict flags =>
             if Str.nonempty (Spec.text_at items (fst p))
             then item (Spec.text_at items (fst p)) flags
             else []
         | _ => []
         end)
      (combine (seq k (length l)) l) = [].
Proof.
  induction l as [|x l IH]; intros k Hk; [reflexivity|].
  cbn [length seq combine flat_map fst snd].
  rewrite IH by lia. rewrite app_nil_r.
  destruct x; try reflexivity.
  unfold Spec.text_at.
  assert (E : nth_error items k = None) by now apply nth_error_None.
  rewrite E. reflexivity.
Qed.

Lemma per_item_firstn (items issues : list value)
    (item : string -> dict -> list Spec.attempt) :
  Spec.per_item items issues item
  = Spec.per_item items (firstn (length items) issues) item.
Proof.
  destruct (Nat.le_ge_cases (length issues) (length items)) as [H|H].
  { now rewrite firstn_all2 by exact H. }
  rewrite <- (firstn_skipn (length items) issues) at 1.
  unfold Spec.per_item. rewrite enumerate_flat_map_app.
  rewrite (per_item_out_of_range items item (skipn (length items) issues)).
  - now rewrite app_nil_r.
  - rewrite length_firstn, Nat.min_l by exact H. lia.
Qed.

Lemma text_at_item (items : list value) (idx : nat) (item : value) :
  nth_error items idx = Some item ->
  Spec.text_at items idx = _combine_entry_text item.
Proof. intros H. unfold Spec.text_at. now rewrite H. Qed.

Lemma run_after (m : M unit) (l1 l2 : list Spec.attempt) (w w1 : world) :
  (forall w, m w = run_attempts (l1 ++ l2) w) ->
  run_attempts l1 w = Ok (tt, w1) ->
  m w = run_attempts l2 w1.
Proof.
  intros Hm H1. rewrite Hm, run_attempts_app. unfold bind. now rewrite H1.
Qed.

Lemma run_one (a : Spec.attempt) (w : world) :
  let r := llm_call (llm_client w) (Spec.a_text a) (Spec.a_instruction a) in
  run_attempts [a] w
  = Ok (tt, mkWorld (snd r) (calls w ++ [Spec.call_of a])
              (append_if_changed (suggestions w) (Spec.a_section a) (Spec.a_issue a)
                 (Some (Spec.a_text a)) (fst r))).
Proof.
  cbv zeta. cbn [run_attempts]. unfold bind. rewrite rewrite_and_append_ok.
  reflexivity.
Qed.

Lemma run_two (a b : Spec.attempt) (w : world) :
  let r1 := llm_call (llm_client w) (Spec.a_text a) (Spec.a_instruction a) in
  let r2 := llm_call (snd r1) (Spec.a_text b) (Spec.a_instruction b) in
  run_attempts [a; b] w
  = Ok (tt, mkWorld (snd r2) (calls w ++ [Spec.call_of a; Spec.call_of b])
              (append_if_changed
                 (append_if_changed (suggestions w) (Spec.a_section a)
                    (Spec.a_issue a) (Some (Spec.a_text a)) (fst r1))
                 (Spec.a_section b) (Spec.a_issue b) (Some (Spec.a_text b)) (fst r2))).
Proof.
  cbv zeta. cbn [run_attempts]. unfold bind. rewrite !rewrite_and_append_ok.
  cbn [llm_client calls suggestions]. unfold ret.
  now rewrite <- app_assoc.
Qed.

(** ** Experience-like items with several flags *)

(** C7 (amended): for an experience-like item with a non-empty flattened
    text whose flag-mapping has [no_metrics] and [weak_action_verbs] truthy
    and no other recognised flag truthy, the handler makes exactly two oracle
    calls on that text, one per flag, and passes each answer through the
    change filter under the labels "No measurable impact" and "Weak action
    verbs"; when the filter lets both through, exactly two suggestions are
    appended, in this order, both with that text as original. *)
Theorem two_flags_two_rewrites :
  forall (section_label : string) (items pre : list value) (item : value)
         (flags : dict) (w w1 : world),
    nth_error items (length pre) = Some item ->
    _combine_entry_text item <> "" ->
    truthy (dict_get flags "no_metrics") = true ->
    truthy (dict_get flags "weak_action_verbs") = true ->
    truthy (dict_get flags "responsibility_over_achievement") = false ->
    truthy (dict_get flags "too_wordy") = false ->
    truthy (dict_get flags "too_long") = false ->
    truthy (dict_get flags "missing_keywords") = false ->
    _process_experience_like section_label items (VList pre) w = Ok (tt, w1) ->
    let text := _combine_entry_text item in
    let r1 := llm_call (llm_client w1) text Instr.ADD_METRICS in
    let r2 := llm_call (snd r1) text Instr.STRONG_VERBS in
    exists w2,
      _process_experience_like section_label items (VList (pre ++ [VDict flags])) w
      = Ok (tt, w2)
      /\ calls w2 = calls w1 ++ [(text, Instr.ADD_METRICS); (text, Instr.STRONG_VERBS)]
      /\ llm_client w2 = snd r2
      /\ suggestions w2
         = append_if_changed
             (append_if_changed (suggestions w1) section_label
                "No measurable impact" (Some text) (fst r1))
             section_label "Weak action verbs" (Some text) (fst r2)
      /\ (forall y1 y2,
             fst r1 = Some y1 -> fst r2 = Some y2 ->
             norm y1 <> "" -> norm y1 <> norm text ->
             norm y2 <> "" -> norm y2 <> norm text ->
             suggestions w2
             = suggestions w1
               ++ [mkResumeSuggestion section_label "No measurable impact"
                     (Some text) y1;
                   mkResumeSuggestion section_label "Weak action verbs"
                     (Some text) y2]).
Proof.
  intros section_label items pre item flags w w1 Hitem Htext Hm Hv Hr Hw Hl Hk Hpre.
  cbv zeta.
  rewrite process_experience_like_attempts in Hpre.
  eexists. split; [|split; [|split; [|split]]].
  - rewrite (run_after _ (Spec.per_item items pre (Spec.experience_item section_label))
               [Spec.mkAttempt section_label "No measurable impact"
                  (_combine_entry_text item) Instr.ADD_METRICS;
                Spec.mkAttempt section_label "Weak action verbs"
                  (_combine_entry_text item) Instr.STRONG_VERBS] w w1).
    + apply run_two.
    + intros w0. rewrite process_experience_like_attempts.
      unfold Spec.experience_like. rewrite per_item_snoc.
      rewrite (text_at_item _ _ _ Hitem).
      apply nonempty_true_iff in Htext. rewrite Htext.
      rewrite experience_item_flags, !truthy_py_or, Hm, Hv, Hr, Hw, Hl, Hk.
      reflexivity.
    + exact Hpre.
  - reflexivity.
  - reflexivity.
  - reflexivity.
  - intros y1 y2 E1 E2 H1 H2 H3 H4. cbn [suggestions Spec.a_section Spec.a_issue
      Spec.a_text Spec.a_instruction].
    rewrite E1, E2.
    rewrite (append_if_changed_accept _ _ _ (Some (_combine_entry_text item)) y1)
      by assumption.
    rewrite (append_if_changed_accept _ _ _ (Some (_combine_entry_text item)) y2)
      by assumption.
    now rewrite <- app_assoc.
Qed.

(** ** Flags that no handler knows *)

(** C8 (amended): in a simple-list section, an item with a non-empty
    flattened text whose flag-mapping is non-empty and has none of
    [too_generic], [missing_impact], [too_wordy], [too_long] truthy gets
    exactly one oracle call with the generic instruction, and the answer goes
    through the change filter under the label "Improve phrasing"; in an
    experience-like section an item whose flag-mapping has no recognised flag
    truthy (so one that holds unrecognised flags only) gets no oracle call
    and no suggestion. *)
Theorem unknown_flags_fallback :
  (forall (section_label generic_instruction : string) (items pre : list value)
          (item : value) (flags : dict) (w w1 : world),
      nth_error items (length pre) = Some item ->
      _combine_entry_text item <> "" ->
      flags <> [] ->
      truthy (dict_get flags "too_generic") = false ->
      truthy (dict_get flags "missing_impact") = false ->
      truthy (dict_get flags "too_wordy") = false ->
      truthy (dict_get flags "too_long") = false ->
      _process_simple_list_section section_label items (VList pre)
        generic_instruction w = Ok (tt, w1) ->
      let text := _combine_entry_text item in
      let r := llm_call (llm_client w1) text generic_instruction in
      _process_simple_list_section section_label items
        (VList (pre ++ [VDict flags])) generic_instruction w
      = Ok (tt, mkWorld (snd r) (calls w1 ++ [(text, generic_instruction)])
                  (append_if_changed (suggestions w1) section_label
                     "Improve phrasing" (Some text) (fst r))))
  /\ (forall (section_label : string) (items pre : list value) (flags : dict)
             (w : world),
         truthy (dict_get flags "no_metrics") = false ->
         truthy (dict_get flags "missing_metrics") = false ->
         truthy (dict_get flags "weak_action_verbs") = false ->
         truthy (dict_get flags "responsibility_over_achievement") = false ->
         truthy (dict_get flags "too_wordy") = false ->
         truthy (dict_get flags "too_long") = false ->
         truthy (dict_get flags "missing_keywords") = false ->
         _process_experience_like section_label items (VList (pre ++ [VDict flags])) w
         = _process_experience_like section_label items (VList pre) w).
Proof.
  split.
  - intros section_label generic items pre item flags w w1
           Hitem Htext Hflags Hg Hi Hw Hl Hpre.
    cbv zeta. rewrite process_simple_list_section_attempts in Hpre.
    rewrite (run_after _
               (Spec.per_item items pre (Spec.simple_list_item section_label generic))
               [Spec.mkAttempt section_label "Improve phrasing"
                  (_combine_entry_text item) generic] w w1).
    + apply run_one.
    + intros w0. rewrite process_simple_list_section_attempts.
      unfold Spec.simple_list. rewrite per_item_snoc.
      rewrite (text_at_item _ _ _ Hitem).
      apply nonempty_true_iff in Htext. rewrite Htext.
      rewrite simple_list_item_flags, !truthy_py_or, Hg, Hi, Hw, Hl.
      destruct flags; [contradiction | reflexivity].
    + exact Hpre.
  - intros section_label items pre flags w Hm Hmm Hv Hr Hw Hl Hk.
    rewrite !process_experience_like_attempts.
    unfold Spec.experience_like. rewrite per_item_snoc.
    rewrite experience_item_flags, !truthy_py_or, Hm, Hmm, Hv, Hr, Hw, Hl, Hk.
    cbn [orb app].
    destruct (Str.nonempty (Spec.text_at items (length pre)));
      now rewrite app_nil_r.
Qed.

(** ** Skills *)

(** C9: with a non-empty skills string and a flag-mapping in which
    [too_generic] or [missing_proficiency] is truthy, the skills handler
    makes exactly one oracle call and passes the answer through the change
    filter under the label "Skills too generic" when [too_generic] is truthy
    and "Missing proficiency levels" otherwise; with an empty skills string
    it makes no call and appends nothing. *)
Theorem skills_handler :
  (forall (resume_text flags : dict) (w : world),
      _get_skills_text resume_text <> "" ->
      truthy (dict_get flags "too_generic") = true
      \/ truthy (dict_get flags "missing_proficiency") = true ->
      let text := _get_skills_text resume_text in
      let r := llm_call (llm_client w) text Instr.SKILLS in
      let label :=
        if truthy (dict_get flags "too_generic") then "Skills too generic"
        else "Missing proficiency levels" in
      _process_skills resume_text (VDict flags) w
      = Ok (tt, mkWorld (snd r) (calls w ++ [(text, Instr.SKILLS)])
                  (append_if_changed (suggestions w) "skills" label
                     (Some text) (fst r))))
  /\ (forall (resume_text : dict) (issues : value) (w : world),
         _get_skills_text resume_text = "" ->
         _process_skills resume_text issues w = Ok (tt, w)).
Proof.
  split.
  - intros resume_text flags w Htext Hflag. cbv zeta.
    rewrite process_skills_attempts. unfold Spec.skills. cbv zeta.
    apply nonempty_true_iff in Htext. rewrite Htext.
    unfold Spec.flag_set. cbn [existsb andb]. rewrite orb_false_r.
    replace (truthy (dict_get flags "too_generic")
             || truthy (dict_get flags "missing_proficiency")) with true
      by (destruct Hflag as [-> | ->]; [reflexivity | now rewrite orb_true_r]).
    apply run_one.
  - intros resume_text issues w Htext. unfold _process_skills. cbv zeta.
    apply nonempty_false_iff in Htext. rewrite Htext. reflexivity.
Qed.

(** ** Issue entries without an item *)

Lemma run_attempts_same (m1 m2 : M unit) (l : list Spec.attempt) (w : world) :
  m1 w = run_attempts l w -> m2 w = run_attempts l w ->
  exists w', m1 w = Ok (tt, w') /\ m2 w = Ok (tt, w').
Proof.
  intros H1 H2. destruct (run_attempts_ok l w) as [w' Hw'].
  exists w'. now rewrite H1, H2.
Qed.

(** C10: an issue entry at an index past the end of the item list has
    the empty string as its flattened text and is skipped: a handler with a per-item issues list does not raise, and does
    what it does on the issues list cut at the number of items (the entries
    in range are processed, the others make no oracle call and append
    nothing); in particular an entry added at such an index changes
    nothing. *)
Theorem out_of_range_index_skipped :
  forall (section_label generic_instruction : string)
         (items issues : list value) (w : world),
    (forall idx : nat, length items <= idx -> item_text items idx w = Ok ("", w))
    /\ (exists w',
        _process_simple_list_section section_label items (VList issues)
          generic_instruction w = Ok (tt, w')
        /\ _process_simple_list_section section_label items
             (VList (firstn (length items) issues)) generic_instruction w
           = Ok (tt, w'))
    /\ (exists w',
           _process_experience_like section_label items (VList issues) w
           = Ok (tt, w')
           /\ _process_experience_like section_label items
                (VList (firstn (length items) issues)) w = Ok (tt, w'))
    /\ (exists w',
           _process_education items (VList issues) w = Ok (tt, w')
           /\ _process_education items (VList (firstn (length items) issues)) w
              = Ok (tt, w'))
    /\ (forall entry : value,
           length items <= length issues ->
           _process_simple_list_section section_label items
             (VList (issues ++ [entry])) generic_instruction w
           = _process_simple_list_section section_label items (VList issues)
               generic_instruction w
           /\ _process_experience_like section_label items
                (VList (issues ++ [entry])) w
              = _process_experience_like section_label items (VList issues) w
           /\ _process_education items (VList (issues ++ [entry])) w
              = _process_education items (VList issues) w).
Proof.
  intros section_label generic items issues w.
  split; [|split; [|split; [|split]]].
  - intros idx Hidx. rewrite item_text_ok. unfold Spec.text_at.
    assert (E : nth_error items idx = None) by now apply nth_error_None.
    now rewrite E.
  - eapply run_attempts_same.
    + apply process_simple_list_section_attempts.
    + rewrite process_simple_list_section_attempts.
      unfold Spec.simple_list. now rewrite <- per_item_firstn.
  - eapply run_attempts_same.
    + apply process_experience_like_attempts.
    + rewrite process_experience_like_attempts.
      unfold Spec.experience_like. now rewrite <- per_item_firstn.
  - eapply run_attempts_same.
    + apply process_education_attempts.
    + rewrite process_education_attempts.
      unfold Spec.education. now rewrite <- per_item_firstn.
  - intros entry Hlen.
    assert (Hnone : Spec.text_at items (length issues) = "").
    { unfold Spec.text_at.
      assert (E : nth_error items (length issues) = None)
        by now apply nth_error_None.
      now rewrite E. }
    rewrite !process_simple_list_section_attempts,
            !process_experience_like_attempts, !process_education_attempts.
    unfold Spec.simple_list, Spec.experience_like, Spec.education.
    rewrite !per_item_snoc, Hnone. cbn [Str.nonempty String.eqb negb].
    repeat split; destruct entry; now rewrite app_nil_r.
Qed.

(** * Further properties of the module *)

(** ** Issue lookup *)

Lemma get_section_issues_skip (analysis : dict) (k : string) (keys : list string)
    (w : world) :
  dict_in k analysis = false ->
  _get_section_issues analysis (k :: keys) w = _get_section_issues analysis keys w.
Proof. intros H. simpl. now rewrite H. Qed.

(** X1: issue lookup never raises: it returns, verbatim, the value under
    the first alias that is a key of the analysis, whatever that value is
    (also [None], which ends the search), and [None] when no alias is a
    key. *)
Theorem get_section_issues_first_present :
  (forall (analysis : dict) (pre : list string) (k : string) (post : list string)
          (v : value) (w : world),
      (forall k', In k' pre -> dict_in k' analysis = false) ->
      dict_find analysis k = Some v ->
      _get_section_issues analysis (pre ++ k :: post) w = Ok (v, w))
  /\ (forall (analysis : dict) (keys : list string) (w : world),
         (forall k, In k keys -> dict_in k analysis = false) ->
         _get_section_issues analysis keys w = Ok (VNone, w)).
Proof.
  split.
  - intros analysis pre k post v w Hpre Hk.
    induction pre as [|k0 pre IH].
    + simpl. unfold dict_in, dict_subscript. now rewrite Hk.
    + change ((k0 :: pre) ++ k :: post) with (k0 :: (pre ++ k :: post)).
      rewrite get_section_issues_skip by (apply Hpre; now left).
      apply IH. intros k' Hin. apply Hpre. now right.
  - intros analysis keys w Hkeys.
    induction keys as [|k keys IH]; [reflexivity|].
    rewrite get_section_issues_skip by (apply Hkeys; now left).
    apply IH. intros k' Hin. apply Hkeys. now right.
Qed.

(** ** Fields of a mapping item *)

Lemma first_text_field_pass (entry : dict) (key : string) (keys : list string) :
  (forall Y, dict_get entry key = VStr Y -> Str.strip Y = "") ->
  first_text_field entry (key :: keys) = first_text_field entry keys.
Proof.
  intros H. simpl. destruct (dict_get entry key) as [| b | z | Y | l | l | d];
    try reflexivity.
  assert (E : Str.strip Y = "") by now apply H.
  apply nonempty_false_iff in E. now rewrite E.
Qed.

Lemma first_text_field_none (entry : dict) (keys : list string) :
  (forall k, In k keys -> forall Y, dict_get entry k = VStr Y -> Str.strip Y = "") ->
  first_text_field entry keys = None.
Proof.
  induction keys as [|k keys IH]; intros H; [reflexivity|].
  rewrite first_text_field_pass by (apply H; now left).
  apply IH. intros k' Hin. apply H. now right.
Qed.

Lemma first_text_field_with_pass (strip : string -> string) (entry : dict)
    (key : string) (keys : list string) :
  (forall Y, dict_get entry key = VStr Y -> strip Y = "") ->
  first_text_field_with strip entry (key :: keys)
  = first_text_field_with strip entry keys.
Proof.
  intros H. simpl. destruct (dict_get entry key) as [| b | z | Y | l | l | d];
    try reflexivity.
  assert (E : strip Y = "") by now apply H.
  apply nonempty_false_iff in E. now rewrite E.
Qed.

Lemma first_text_field_with_first (strip : string -> string) (entry : dict)
    (pre : list string) (k : string) (post : list string) (X : string) :
  (forall k', In k' pre -> forall Y, dict_get entry k' = VStr Y -> strip Y = "") ->
  dict_get entry k = VStr X -> strip X <> "" ->
  first_text_field_with strip entry (pre ++ k :: post) = Some (strip X).
Proof.
  induction pre as [|k0 pre IH]; intros Hpre Hk Hne.
  - now apply first_text_field_with_head.
  - change ((k0 :: pre) ++ k :: post) with (k0 :: (pre ++ k :: post)).
    rewrite first_text_field_with_pass by (apply Hpre; now left).
    apply IH; try assumption. intros k' Hin. apply Hpre. now right.
Qed.

(** X2: whatever [str.strip] computes on the strings at hand, on a
    mapping item the flattener returns, trimmed, the first of the fields
    description, details, summary, line, text that holds a string which is
    not blank: fields before it that are missing, hold no string or hold a
    blank one are passed over, and nothing else in the mapping matters. *)
Theorem flatten_text_field_priority :
  forall (strip : string -> string) (d : dict) (pre : list string) (k : string)
         (post : list string) (X : string),
    pre ++ k :: post = TEXT_FIELDS ->
    (forall k', In k' pre -> forall Y, dict_get d k' = VStr Y -> strip Y = "") ->
    dict_get d k = VStr X ->
    strip X <> "" ->
    _combine_entry_text_with strip (VDict d) = strip X.
Proof.
  intros strip d pre k post X Hkeys Hpre Hk Hne.
  unfold _combine_entry_text_with. fold TEXT_FIELDS. rewrite <- Hkeys.
  now rewrite (first_text_field_with_first strip d pre k post X Hpre Hk Hne).
Qed.

(** X3: a mapping item with no usable text field and a non-empty list
    under [bullets] flattens as that list does on its own: its string
    elements joined by the bullet separator, all other fields ignored. *)
Theorem flatten_bullets_fallback :
  forall (d : dict) (bullets : list value),
    (forall k, In k TEXT_FIELDS ->
               forall Y, dict_get d k = VStr Y -> Str.strip Y = "") ->
    dict_get d "bullets" = VList bullets ->
    bullets <> [] ->
    _combine_entry_text (VDict d) = _combine_entry_text (VList bullets)
    /\ _combine_entry_text (VDict d) = Str.join Str.BULLET (only_strs bullets).
Proof.
  intros d bullets Hnone Hb Hne.
  assert (E : _combine_entry_text (VDict d) = Str.join Str.BULLET (only_strs bullets)).
  { unfold _combine_entry_text. fold TEXT_FIELDS.
    rewrite (first_text_field_none d TEXT_FIELDS Hnone), Hb.
    destruct bullets; [contradiction | reflexivity]. }
  split; [|exact E]. rewrite E. reflexivity.
Qed.

(** ** What any run leaves behind *)

Lemma subseq_length {A} (sub l : list A) :
  Spec.subseq sub l -> length sub <= length l.
Proof. intros H. induction H; simpl; lia. Qed.

Lemma subseq_incl {A} (sub l : list A) (x : A) :
  Spec.subseq sub l -> In x sub -> In x l.
Proof.
  intros H. induction H; simpl; intros Hin; [contradiction| |].
  - destruct Hin as [-> | Hin]; [now left | right; auto].
  - right. auto.
Qed.

(** running a list of attempts, whatever their texts: no exception, one
    oracle call per attempt, suggestions only added at the end of the list *)
Lemma run_attempts_trace (l : list Spec.attempt) (w : world) :
  exists w' extra,
    run_attempts l w = Ok (tt, w')
    /\ calls w' = calls w ++ map Spec.call_of l
    /\ suggestions w' = suggestions w ++ extra
    /\ Spec.subseq (map Spec.head_of_suggestion extra) (map Spec.head_of_attempt l).
Proof.
  revert w. induction l as [|a l IH]; intros w.
  - exists w, []. simpl. rewrite !app_nil_r. repeat split; constructor.
  - cbn [run_attempts]. unfold bind. rewrite rewrite_and_append_ok.
    set (r := llm_call (llm_client w) (Spec.a_text a) (Spec.a_instruction a)).
    set (w1 := mkWorld _ _ _).
    destruct (IH w1) as (w' & extra & Hrun & Hcalls & Hsug & Hsub).
    destruct (append_if_changed_cases (suggestions w) (Spec.a_section a)
                (Spec.a_issue a) (Some (Spec.a_text a)) (fst r))
      as [Hrej | (y & Hy & Hne & Hn1 & Hn2 & Hacc)].
    + exists w', extra. repeat split.
      * exact Hrun.
      * rewrite Hcalls. unfold w1. cbn [calls map]. now rewrite <- app_assoc.
      * rewrite Hsug. unfold w1. cbn [suggestions]. now rewrite Hrej.
      * cbn [map]. now constructor.
    + exists w', (mkResumeSuggestion (Spec.a_section a) (Spec.a_issue a)
                    (Some (Spec.a_text a)) y :: extra).
      repeat split.
      * exact Hrun.
      * rewrite Hcalls. unfold w1. cbn [calls map]. now rewrite <- app_assoc.
      * rewrite Hsug. unfold w1. cbn [suggestions]. rewrite Hacc.
        now rewrite <- app_assoc.
      * cbn [map]. now constructor.
Qed.

(** the entry point on any input, as a run of the planned calls *)
Lemma generate_trace (analysis resume_text : option dict) (w : world) :
  exists out w',
    generate_resume_improvements analysis resume_text w = Ok (out, w')
    /\ calls w' = calls w ++ planned_calls analysis resume_text
    /\ length out <= length (planned_calls analysis resume_text)
    /\ (forall s, In s out ->
          dict_truthy analysis = true /\ dict_truthy resume_text = true
          /\ In (Spec.head_of_suggestion s)
               (map Spec.head_of_attempt
                  (Spec.plan (dict_or_empty analysis) (dict_or_empty resume_text)))).
Proof.
  unfold planned_calls.
  destruct (dict_truthy analysis) eqn:Ea.
  2:{ exists [], (mkWorld (llm_client w) (calls w) []).
      rewrite generate_guard by now left.
      cbn [calls andb length]. rewrite app_nil_r.
      repeat split; auto; contradiction. }
  destruct (dict_truthy resume_text) eqn:Er.
  2:{ exists [], (mkWorld (llm_client w) (calls w) []).
      rewrite generate_guard by now right.
      cbn [calls andb length]. rewrite app_nil_r.
      repeat split; auto; contradiction. }
  cbn [andb].
  pose proof (dict_truthy_true _ Ea) as (a & -> & Ha).
  pose proof (dict_truthy_true _ Er) as (r & -> & Hr).
  cbn [dict_or_empty].
  rewrite generate_runs_plan by assumption.
  destruct (run_attempts_trace (Spec.plan a r) (mkWorld (llm_client w) (calls w) []))
    as (w' & extra & Hrun & Hcalls & Hsug & Hsub).
  rewrite Hrun. exists (suggestions w'), w'.
  cbn [suggestions app calls] in Hsug, Hcalls. rewrite Hsug.
  repeat split; try assumption.
  - apply subseq_length in Hsub. now rewrite !length_map in *.
  - apply (subseq_incl _ _ _ Hsub). now apply in_map.
Qed.

Lemma plan_labels (analysis document : dict) (a : Spec.attempt) :
  In a (Spec.plan analysis document) -> In (Spec.a_section a) SECTION_LABELS.
Proof.
  unfold Spec.plan. intros Hin. apply in_flat_map in Hin.
  destruct Hin as (s & Hs & Ha).
  pose proof (section_attempts_label analysis document s Hs) as HF.
  rewrite Forall_forall in HF. rewrite (HF a Ha).
  unfold Spec.SECTIONS in Hs. cbn [In] in Hs.
  repeat (destruct Hs as [<- | Hs]; [cbn; tauto|]). contradiction.
Qed.

(** X4: whatever the inputs and the oracle, every suggestion the entry
    point returns carries one of the nine section labels of the module (the
    label of the logical section, not the alias the data was found under),
    and its original text is the text of an oracle call of this run. *)
Theorem generate_labels_canonical :
  forall (analysis resume_text : option dict) (w : world),
  exists out w',
    generate_resume_improvements analysis resume_text w = Ok (out, w')
    /\ Forall (fun s => In (section s) SECTION_LABELS) out
    /\ Forall (fun s => exists text instruction,
                   original_text s = Some text
                   /\ In (text, instruction) (planned_calls analysis resume_text))
         out.
Proof.
  intros analysis resume_text w.
  destruct (generate_trace analysis resume_text w)
    as (out & w' & Hrun & _ & _ & Hin).
  exists out, w'. split; [exact Hrun|].
  split; apply Forall_forall; intros s Hs; cbv beta;
    destruct (Hin s Hs) as (Ea & Er & Hhead);
    apply in_map_iff in Hhead; destruct Hhead as (a & Heq & Ha);
    unfold Spec.head_of_attempt, Spec.head_of_suggestion in Heq;
    injection Heq as H1 H2 H3.
  - rewrite <- H1. exact (plan_labels _ _ a Ha).
  - exists (Spec.a_text a), (Spec.a_instruction a). split; [now symmetry|].
    unfold planned_calls. rewrite Ea, Er. cbn [andb].
    apply in_map_iff. exists a. now split.
Qed.

(** X5: the entry point returns at most one suggestion per oracle call
    it makes; in particular a run without oracle calls returns nothing. *)
Theorem generate_at_most_one_per_call :
  forall (analysis resume_text : option dict) (w : world),
  exists out w' new_calls,
    generate_resume_improvements analysis resume_text w = Ok (out, w')
    /\ calls w' = calls w ++ new_calls
    /\ length out <= length new_calls.
Proof.
  intros analysis resume_text w.
  destruct (generate_trace analysis resume_text w)
    as (out & w' & Hrun & Hcalls & Hlen & _).
  now exists out, w', (planned_calls analysis resume_text).
Qed.

(** ** Oracles that bring nothing new *)

Lemma run_attempts_nothing_new (l : list Spec.attempt) :
  (forall client text instruction,
      match fst (llm_call client text instruction) with
      | None => True
      | Some y => norm y = "" \/ norm y = norm text
      end) ->
  forall w, exists w',
    run_attempts l w = Ok (tt, w')
    /\ suggestions w' = suggestions w
    /\ calls w' = calls w ++ map Spec.call_of l.
Proof.
  intros Horacle. induction l as [|a l IH]; intros w.
  - exists w. simpl. now rewrite app_nil_r.
  - cbn [run_attempts]. unfold bind. rewrite rewrite_and_append_ok.
    set (w1 := mkWorld _ _ _).
    destruct (IH w1) as (w' & Hrun & Hsug & Hcalls).
    exists w'. split; [exact Hrun|]. split.
    + rewrite Hsug. unfold w1. cbn [suggestions].
      pose proof (Horacle (llm_client w) (Spec.a_text a) (Spec.a_instruction a)) as H.
      destruct (fst (llm_call (llm_client w) (Spec.a_text a) (Spec.a_instruction a)))
        as [y|]; [|reflexivity].
      now apply append_if_changed_reject.
    + rewrite Hcalls. unfold w1. cbn [calls map]. now rewrite <- app_assoc.
Qed.

(** X6: with an oracle whose every answer is [None], blank, or the text
    it was given up to case and surrounding whitespace, the entry point
    returns the empty list on every input, after making all the oracle calls
    of the run. *)
Theorem generate_nothing_new :
  forall (analysis resume_text : option dict) (w : world),
    (forall client text instruction,
        match fst (llm_call client text instruction) with
        | None => True
        | Some y => norm y = "" \/ norm y = norm text
        end) ->
    exists w',
      generate_resume_improvements analysis resume_text w = Ok ([], w')
      /\ calls w' = calls w ++ planned_calls analysis resume_text.
Proof.
  intros analysis resume_text w Horacle. unfold planned_calls.
  destruct (dict_truthy analysis) eqn:Ea.
  2:{ exists (mkWorld (llm_client w) (calls w) []).
      rewrite generate_guard by now left.
      cbn [calls andb]. now rewrite app_nil_r. }
  destruct (dict_truthy resume_text) eqn:Er.
  2:{ exists (mkWorld (llm_client w) (calls w) []).
      rewrite generate_guard by now right.
      cbn [calls andb]. now rewrite app_nil_r. }
  cbn [andb].
  pose proof (dict_truthy_true _ Ea) as (a & -> & Ha).
  pose proof (dict_truthy_true _ Er) as (r & -> & Hr).
  cbn [dict_or_empty]. rewrite generate_runs_plan by assumption.
  destruct (run_attempts_nothing_new (Spec.plan a r) Horacle
              (mkWorld (llm_client w) (calls w) []))
    as (w' & Hrun & Hsug & Hcalls).
  rewrite Hrun, Hsug. now exists w'.
Qed.

(** ** Inputs that leave nothing to do *)

Lemma resolve_issues_absent (analysis : dict) (keys : list string) :
  (forall k, In k keys -> dict_find analysis k = None) ->
  Spec.resolve_issues analysis keys = VNone.
Proof.
  induction keys as [|k keys IH]; intros H; [reflexivity|].
  simpl. rewrite (H k) by now left.
  apply IH. intros k' Hin. apply H. now right.
Qed.

Lemma generate_empty_plan (analysis resume_text : dict) (w : world) :
  analysis <> [] -> resume_text <> [] ->
  Spec.plan analysis resume_text = [] ->
  generate_resume_improvements (Some analysis) (Some resume_text) w
  = Ok ([], mkWorld (llm_client w) (calls w) []).
Proof.
  intros Ha Hr Hplan. rewrite generate_runs_plan by assumption.
  rewrite Hplan. reflexivity.
Qed.

(** X7: an analysis in which none of the aliases the entry point knows
    is a key (its keys name other sections) yields the empty list, and the
    oracle is not called, whatever the document holds. *)
Theorem generate_unknown_sections_ignored :
  forall (analysis resume_text : dict) (w : world),
    (forall k, In k ISSUE_KEYS -> dict_find analysis k = None) ->
    exists w',
      generate_resume_improvements (Some analysis) (Some resume_text) w
      = Ok ([], w')
      /\ calls w' = calls w
      /\ llm_client w' = llm_client w.
Proof.
  intros analysis resume_text w Hkeys.
  exists (mkWorld (llm_client w) (calls w) []). repeat split.
  destruct analysis as [|b analysis].
  { apply generate_guard. now left. }
  destruct resume_text as [|b' resume_text].
  { apply generate_guard. now right. }
  apply generate_empty_plan; try discriminate.
  unfold Spec.plan, Spec.SECTIONS. cbn [flat_map].
  unfold Spec.section_attempts. cbn [fst snd]. cbv zeta.
  rewrite !resolve_issues_absent
    by (intros k Hk; apply Hkeys; unfold ISSUE_KEYS;
        repeat (apply in_or_app; first [left; exact Hk | right]); exact Hk).
  cbn [is_not_None]. rewrite !andb_false_r. reflexivity.
Qed.

(** X8: a document in which no list-shaped section has items, the skills
    flatten to the empty string and [summary] is no non-empty string yields
    the empty list, and the oracle is not called, whatever the analysis
    flags. *)
Theorem generate_nothing_to_rewrite :
  forall (analysis resume_text : dict) (w : world),
    _get_items resume_text _EXPERIENCE_KEYS = [] ->
    _get_items resume_text _INTERNSHIP_KEYS = [] ->
    _get_items resume_text _EDUCATION_KEYS = [] ->
    _get_items resume_text _AWARDS_KEYS = [] ->
    _get_items resume_text _POR_KEYS = [] ->
    _get_items resume_text _CO_CURR_KEYS = [] ->
    _get_items resume_text _EXTRA_CURR_KEYS = [] ->
    _get_skills_text resume_text = "" ->
    (forall s, dict_get resume_text "summary" = VStr s -> s = "") ->
    exists w',
      generate_resume_improvements (Some analysis) (Some resume_text) w
      = Ok ([], w')
      /\ calls w' = calls w
      /\ llm_client w' = llm_client w.
Proof.
  intros analysis resume_text w H1 H2 H3 H4 H5 H6 H7 Hskills Hsummary.
  exists (mkWorld (llm_client w) (calls w) []). repeat split.
  destruct analysis as [|b analysis].
  { apply generate_guard. now left. }
  destruct resume_text as [|b' resume_text].
  { apply generate_guard. now right. }
  apply generate_empty_plan; try discriminate.
  remember (b' :: resume_text) as document eqn:Hdoc. clear Hdoc.
  remember (b :: analysis) as flagged eqn:Hflagged. clear Hflagged.
  unfold Spec.plan, Spec.SECTIONS. cbn [flat_map].
  unfold Spec.section_attempts. cbn [fst snd]. cbv zeta.
  rewrite H1, H2, H3, H4, H5, H6, H7. cbn [truthy andb app].
  unfold Spec.skills, Spec.summary. cbv zeta. rewrite Hskills.
  cbn [Str.nonempty String.eqb negb andb].
  destruct (Spec.resolve_issues flagged _SKILLS_KEYS);
    cbn [is_not_None app];
    (destruct (Spec.resolve_issues flagged _SUMMARY_KEYS);
     cbn [is_not_None app]; try reflexivity;
     destruct (dict_get document "summary") as [| ? | ? | text | ? | ? | ?] eqn:E;
     try reflexivity;
     rewrite (Hsummary text eq_refl); reflexivity).
Qed.

(** ** Section-level issues *)

Lemma append_nonempty (x : string) (c : ascii) (s : string) :
  (x ++ String c s)%string <> "".
Proof. destruct x; discriminate. Qed.

Lemma section_block_two (items : list value) :
  2 <= length items -> section_block items <> "".
Proof.
  destruct items as [|a [|b items]]; cbn [length]; try lia.
  intros _. unfold section_block, Str.join. cbn [map String.concat].
  unfold Str.BULLET. apply append_nonempty.
Qed.

(** X9: given a flag-mapping for the whole section with [too_generic],
    [too_long] or [missing_impact] truthy, the simple-list handler makes one
    oracle call on the block of all flattened items joined by the bullet
    separator, with the caller's instruction and the label "Section too
    generic", provided the block is not empty; with none of the three truthy,
    or an empty block, it does nothing. *)
Theorem simple_list_section_level :
  forall (section_label generic_instruction : string) (items : list value)
         (flags : dict) (w : world),
    let block := section_block items in
    let r := llm_call (llm_client w) block generic_instruction in
    (truthy (dict_get flags "too_generic") = true
     \/ truthy (dict_get flags "too_long") = true
     \/ truthy (dict_get flags "missing_impact") = true ->
     block <> "" ->
     _process_simple_list_section section_label items (VDict flags)
       generic_instruction w
     = Ok (tt, mkWorld (snd r) (calls w ++ [(block, generic_instruction)])
                 (append_if_changed (suggestions w) section_label
                    "Section too generic" (Some block) (fst r))))
    /\ ((truthy (dict_get flags "too_generic") = false
         /\ truthy (dict_get flags "too_long") = false
         /\ truthy (dict_get flags "missing_impact") = false)
        \/ block = "" ->
        _process_simple_list_section section_label items (VDict flags)
          generic_instruction w = Ok (tt, w)).
Proof.
  intros section_label generic items flags w. cbv zeta.
  unfold _process_simple_list_section. rewrite !truthy_py_or. cbv zeta. split.
  - intros Hflag Hblock. apply nonempty_true_iff in Hblock. rewrite Hblock.
    replace (truthy (dict_get flags "too_generic")
             || truthy (dict_get flags "too_long")
             || truthy (dict_get flags "missing_impact")) with true
      by (destruct Hflag as [-> | [-> | ->]];
          rewrite ?orb_true_r; reflexivity).
    cbn [when]. apply rewrite_and_append_ok.
  - intros [(-> & -> & ->) | Hblock]; [reflexivity|].
    apply nonempty_false_iff in Hblock. rewrite Hblock.
    destruct (truthy (dict_get flags "too_generic")
              || truthy (dict_get flags "too_long")
              || truthy (dict_get flags "missing_impact")); reflexivity.
Qed.

(** X10: given a flag-mapping for the whole section, the education
    handler makes one oracle call on the block of all flattened entries,
    labelled "Section needs standardization" under "education", exactly when
    [too_generic] or [too_long] is truthy and the block is not empty; no
    other flag of the mapping triggers it. *)
Theorem education_section_level :
  forall (items : list value) (flags : dict) (w : world),
    let block := section_block items in
    let r := llm_call (llm_client w) block Instr.EDU_SECTION in
    (truthy (dict_get flags "too_generic") = true
     \/ truthy (dict_get flags "too_long") = true ->
     block <> "" ->
     _process_education items (VDict flags) w
     = Ok (tt, mkWorld (snd r) (calls w ++ [(block, Instr.EDU_SECTION)])
                 (append_if_changed (suggestions w) "education"
                    "Section needs standardization" (Some block) (fst r))))
    /\ ((truthy (dict_get flags "too_generic") = false
         /\ truthy (dict_get flags "too_long") = false)
        \/ block = "" ->
        _process_education items (VDict flags) w = Ok (tt, w)).
Proof.
  intros items flags w. cbv zeta.
  unfold _process_education. rewrite !truthy_py_or. cbv zeta. split.
  - intros Hflag Hblock. apply nonempty_true_iff in Hblock. rewrite Hblock.
    replace (truthy (dict_get flags "too_generic")
             || truthy (dict_get flags "too_long")) with true
      by (destruct Hflag as [-> | ->]; rewrite ?orb_true_r; reflexivity).
    cbn [when]. apply rewrite_and_append_ok.
  - intros [(-> & ->) | Hblock]; [reflexivity|].
    apply nonempty_false_iff in Hblock. rewrite Hblock.
    destruct (truthy (dict_get flags "too_generic")
              || truthy (dict_get flags "too_long")); reflexivity.
Qed.

(** X11: with two or more items the block of a section is never empty,
    because of the separators: a flagged section-level rewrite is then always
    attempted, also when no item has any text. *)
Theorem section_level_always_attempted :
  forall (section_label generic_instruction : string) (items : list value)
         (flags : dict) (w : world),
    2 <= length items ->
    truthy (dict_get flags "too_generic") = true ->
    section_block items <> ""
    /\ (exists w',
           _process_simple_list_section section_label items (VDict flags)
             generic_instruction w = Ok (tt, w')
           /\ calls w' = calls w ++ [(section_block items, generic_instruction)])
    /\ (exists w',
           _process_education items (VDict flags) w = Ok (tt, w')
           /\ calls w' = calls w ++ [(section_block items, Instr.EDU_SECTION)]).
Proof.
  intros section_label generic items flags w Hlen Hflag.
  pose proof (section_block_two items Hlen) as Hblock.
  split; [exact Hblock|]. split.
  - eexists. split.
    + unfold _process_simple_list_section. rewrite !truthy_py_or, Hflag.
      cbn [orb]. cbv zeta.
      apply nonempty_true_iff in Hblock. rewrite Hblock.
      cbn [when]. apply rewrite_and_append_ok.
    + reflexivity.
  - eexists. split.
    + unfold _process_education. rewrite !truthy_py_or, Hflag.
      cbn [orb]. cbv zeta.
      apply nonempty_true_iff in Hblock. rewrite Hblock.
      cbn [when]. apply rewrite_and_append_ok.
    + reflexivity.
Qed.

(** ** The calls of a per-item handler *)

Lemma per_item_Forall_item (P : Spec.attempt -> Prop) (items issues : list value)
    (item : string -> dict -> list Spec.attempt) :
  (forall entry text flags,
      In entry items -> text = _combine_entry_text entry -> text <> "" ->
      Forall P (item text flags)) ->
  Forall P (Spec.per_item items issues item).
Proof.
  intros H. unfold Spec.per_item. apply Forall_flat_map_intro.
  intros [idx x] _. cbn [fst snd].
  destruct x; try constructor.
  destruct (Str.nonempty (Spec.text_at items idx)) eqn:E; [|constructor].
  apply nonempty_true_iff in E. unfold Spec.text_at in *.
  destruct (nth_error items idx) as [entry|] eqn:En; [|now contradiction E].
  apply (H entry); [now apply (nth_error_In items idx) | reflexivity | exact E].
Qed.

Lemma per_item_length (n : nat) (items issues : list value)
    (item : string -> dict -> list Spec.attempt) :
  (forall text flags, length (item text flags) <= n) ->
  length (Spec.per_item items issues item) <= n * length issues.
Proof.
  intros H. unfold Spec.per_item.
  generalize 0 as k. induction issues as [|x issues IH]; intros k.
  - simpl. lia.
  - cbn [length seq combine flat_map fst snd]. rewrite length_app.
    specialize (IH (S k)).
    assert (Hx : length (match x with
                         | VDict flags =>
                             if Str.nonempty (Spec.text_at items k)
                             then item (Spec.text_at items k) flags
                             else []
                         | _ => []
                         end) <= n).
    { destruct x; cbn [length]; try lia.
      destruct (Str.nonempty (Spec.text_at items k)); [apply H | cbn; lia]. }
    lia.
Qed.

Lemma fired_length (flags : dict) (table : list Spec.row) :
  length (Spec.fired flags table) <= length table.
Proof. unfold Spec.fired. apply filter_length_le. Qed.

Lemma trace_heads (P : string * string * option string -> Prop)
    (extra : list ResumeSuggestion) (l : list Spec.attempt) :
  Spec.subseq (map Spec.head_of_suggestion extra) (map Spec.head_of_attempt l) ->
  Forall (fun a => P (Spec.head_of_attempt a)) l ->
  Forall (fun s => P (Spec.head_of_suggestion s)) extra.
Proof.
  intros Hsub HF. apply Forall_map.
  apply (subseq_Forall P _ _ Hsub). now apply Forall_map.
Qed.

(** X12: on a per-item issues list the experience-like handler never
    raises and makes at most five oracle calls per issue entry; each call is
    on the non-empty flattened text of an item of the section with one of the
    handler's five instructions; it only adds to the end of the suggestion
    list, at most one suggestion per call, each under the section label it
    was given. *)
Theorem experience_like_calls :
  forall (section_label : string) (items issues : list value) (w : world),
  exists w' new_calls extra,
    _process_experience_like section_label items (VList issues) w = Ok (tt, w')
    /\ calls w' = calls w ++ new_calls
    /\ suggestions w' = suggestions w ++ extra
    /\ length new_calls <= 5 * length issues
    /\ length extra <= length new_calls
    /\ Forall (fun c => (exists entry, In entry items
                                       /\ fst c = _combine_entry_text entry
                                       /\ fst c <> "")
                        /\ In (snd c) EXPERIENCE_INSTRUCTIONS) new_calls
    /\ Forall (fun s => section s = section_label) extra.
Proof.
  intros section_label items issues w.
  rewrite process_experience_like_attempts. unfold Spec.experience_like.
  set (plan := Spec.per_item items issues (Spec.experience_item section_label)).
  destruct (run_attempts_trace plan w) as (w' & extra & Hrun & Hcalls & Hsug & Hsub).
  exists w', (map Spec.call_of plan), extra.
  split; [exact Hrun|]. split; [exact Hcalls|]. split; [exact Hsug|].
  split; [|split; [|split]].
  - rewrite length_map. apply per_item_length. intros text flags.
    unfold Spec.experience_item. rewrite length_map.
    apply (fired_length flags Spec.EXPERIENCE_FLAGS).
  - apply subseq_length in Hsub. now rewrite !length_map in *.
  - apply Forall_map. apply per_item_Forall_item.
    intros entry text flags Hin Htext Hne.
    unfold Spec.experience_item. apply Forall_map.
    unfold Spec.fired. apply Forall_forall. intros r Hr.
    apply filter_In in Hr. destruct Hr as [Hr _]. split.
    + exists entry. cbn. subst text. repeat split; assumption.
    + unfold Spec.EXPERIENCE_FLAGS in Hr. cbn [In] in Hr.
      repeat (destruct Hr as [<- | Hr]; [cbn; tauto|]). contradiction.
  - apply (trace_heads (fun h => fst (fst h) = section_label) extra plan Hsub).
    apply per_item_Forall. intros text flags.
    unfold Spec.experience_item. apply Forall_map.
    apply Forall_forall. intros r _. reflexivity.
Qed.

(** X13: on a per-item issues list the education handler makes at most
    four oracle calls per issue entry and the simple-list handler at most
    two; neither raises, and each call is on the non-empty flattened text of
    an item of the section. *)
Theorem per_item_call_bounds :
  forall (section_label generic_instruction : string)
         (items issues : list value) (w : world),
    (exists w' new_calls,
        _process_education items (VList issues) w = Ok (tt, w')
        /\ calls w' = calls w ++ new_calls
        /\ length new_calls <= 4 * length issues
        /\ Forall (fun c => fst c <> ""
                            /\ exists entry, In entry items
                                             /\ fst c = _combine_entry_text entry)
             new_calls)
    /\ (exists w' new_calls,
           _process_simple_list_section section_label items (VList issues)
             generic_instruction w = Ok (tt, w')
           /\ calls w' = calls w ++ new_calls
           /\ length new_calls <= 2 * length issues
           /\ Forall (fun c => fst c <> ""
                               /\ exists entry, In entry items
                                                /\ fst c = _combine_entry_text entry)
                new_calls).
Proof.
  intros section_label generic items issues w. split.
  - rewrite process_education_attempts. unfold Spec.education.
    set (plan := Spec.per_item items issues Spec.education_item).
    destruct (run_attempts_trace plan w) as (w' & extra & Hrun & Hcalls & _ & _).
    exists w', (map Spec.call_of plan).
    split; [exact Hrun|]. split; [exact Hcalls|]. split.
    + rewrite length_map. apply per_item_length. intros text flags.
      unfold Spec.education_item. rewrite length_map.
      apply (fired_length flags Spec.EDUCATION_FLAGS).
    + apply Forall_map. apply per_item_Forall_item.
      intros entry text flags Hin Htext Hne.
      unfold Spec.education_item. apply Forall_map.
      apply Forall_forall. intros r _. cbn. split; [exact Hne|].
      exists entry. now split.
  - rewrite process_simple_list_section_attempts. unfold Spec.simple_list.
    set (plan := Spec.per_item items issues
                   (Spec.simple_list_item section_label generic)).
    destruct (run_attempts_trace plan w) as (w' & extra & Hrun & Hcalls & _ & _).
    exists w', (map Spec.call_of plan).
    split; [exact Hrun|]. split; [exact Hcalls|]. split.
    + rewrite length_map. apply per_item_length. intros text flags.
      unfold Spec.simple_list_item.
      pose proof (fired_length flags (Spec.SIMPLE_LIST_FLAGS generic)) as Hlen.
      destruct (Spec.fired flags (Spec.SIMPLE_LIST_FLAGS generic)) as [|r rows].
      * destruct (truthy (VDict flags)); cbn; lia.
      * rewrite length_map. exact Hlen.
    + apply Forall_map. apply per_item_Forall_item.
      intros entry text flags Hin Htext Hne.
      unfold Spec.simple_list_item.
      destruct (Spec.fired flags (Spec.SIMPLE_LIST_FLAGS generic)) as [|r rows].
      * destruct (truthy (VDict flags)); repeat constructor; cbn; try assumption.
        exists entry. now split.
      * apply Forall_map. apply Forall_forall. intros r' _. cbn.
        split; [exact Hne|]. exists entry. now split.
Qed.

(** ** Summary *)

(** X14: on a document whose [summary] is a non-empty string and a
    flag-mapping, the summary handler calls the oracle once for each of
    [too_generic], [too_long], [missing_keywords] that is truthy, in this
    order and each time on the summary itself; what it adds to the suggestion
    list is labelled "summary" and has the summary as original text.  When
    [summary] is not a string, or the issues are no mapping, it does
    nothing. *)
Theorem summary_handler :
  (forall (resume_text flags : dict) (text : string) (w : world),
      dict_get resume_text "summary" = VStr text ->
      text <> "" ->
      exists w' extra,
        _process_summary resume_text (VDict flags) w = Ok (tt, w')
        /\ calls w'
           = calls w
             ++ (if truthy (dict_get flags "too_generic")
                 then [(text, Instr.SUMMARY_SPECIFIC)] else [])
             ++ (if truthy (dict_get flags "too_long")
                 then [(text, Instr.SUMMARY_CONCISE)] else [])
             ++ (if truthy (dict_get flags "missing_keywords")
                 then [(text, Instr.KEYWORDS)] else [])
        /\ suggestions w' = suggestions w ++ extra
        /\ Forall (fun s => section s = "summary" /\ original_text s = Some text)
             extra)
  /\ (forall (resume_text : dict) (issues : value) (w : world),
         (forall text, dict_get resume_text "summary" <> VStr text)
         \/ (forall flags, issues <> VDict flags) ->
         _process_summary resume_text issues w = Ok (tt, w)).
Proof.
  split.
  - intros resume_text flags text w Hsum Hne.
    rewrite process_summary_attempts. unfold Spec.summary. rewrite Hsum.
    apply nonempty_true_iff in Hne. rewrite Hne.
    set (plan := map (Spec.to_attempt "summary" text)
                   (Spec.fired flags Spec.SUMMARY_FLAGS)).
    destruct (run_attempts_trace plan w) as (w' & extra & Hrun & Hcalls & Hsug & Hsub).
    exists w', extra. split; [exact Hrun|]. split; [|split; [exact Hsug|]].
    + rewrite Hcalls. unfold plan. rewrite summary_flags.
      destruct (truthy (dict_get flags "too_generic"));
        destruct (truthy (dict_get flags "too_long"));
        destruct (truthy (dict_get flags "missing_keywords")); reflexivity.
    + apply (trace_heads (fun h => fst (fst h) = "summary" /\ snd h = Some text)
               extra plan Hsub).
      unfold plan. apply Forall_map. apply Forall_forall. intros r _. now split.
  - intros resume_text issues w [Hsum | Hiss]; unfold _process_summary; cbv zeta.
    + destruct (dict_get resume_text "summary") as [| ? | ? | text | ? | ? | ?];
        try reflexivity.
      exfalso. now apply (Hsum text).
    + destruct (dict_get resume_text "summary") as [| ? | ? | text | ? | ? | ?];
        try reflexivity.
      destruct (negb (Str.nonempty text)); [reflexivity|].
      destruct issues as [| ? | ? | ? | ? | ? | flags]; try reflexivity.
      exfalso. now apply (Hiss flags).
Qed.

(** ** Items without text *)

Lemma dict_get_holds_no_text (d : dict) (k : string) :
  forallb (fun kv => holds_no_text (snd kv)) d = true ->
  holds_no_text (dict_get d k) = true.
Proof.
  unfold dict_get. induction d as [|[k' v] d IH]; intros H; [reflexivity|].
  cbn [forallb snd] in H. apply andb_true_iff in H. destruct H as [Hv Hd].
  cbn [dict_find]. destruct (String.eqb k' k); [exact Hv | now apply IH].
Qed.

Lemma entry_parts_no_text (d : dict) :
  forallb (fun kv => holds_no_text (snd kv)) d = true -> entry_parts d = [].
Proof.
  induction d as [|[k v] d IH]; intros H; [reflexivity|].
  cbn [forallb snd] in H. apply andb_true_iff in H. destruct H as [Hv Hd].
  cbn [entry_parts]. destruct v; try discriminate; now apply IH.
Qed.

(** X16: a mapping item whose values are all numbers, booleans, [None] or
    nested mappings flattens to the empty string (nested mappings are not
    searched), so a per-item handler skips it: flagged or not, it gets no
    oracle call and no suggestion. *)
Theorem item_without_text_skipped :
  forall (d : dict),
    forallb (fun kv => holds_no_text (snd kv)) d = true ->
    _combine_entry_text (VDict d) = ""
    /\ forall (section_label generic_instruction : string) (flags : dict)
              (w : world),
         _process_experience_like section_label [VDict d] (VList [VDict flags]) w
         = Ok (tt, w)
         /\ _process_education [VDict d] (VList [VDict flags]) w = Ok (tt, w)
         /\ _process_simple_list_section section_label [VDict d]
              (VList [VDict flags]) generic_instruction w = Ok (tt, w).
Proof.
  intros d Hd.
  assert (E : _combine_entry_text (VDict d) = "").
  { unfold _combine_entry_text.
    rewrite first_text_field_none.
    - pose proof (dict_get_holds_no_text d "bullets" Hd) as Hb.
      destruct (dict_get d "bullets"); try discriminate;
        now rewrite entry_parts_no_text.
    - intros k _ Y HY. pose proof (dict_get_holds_no_text d k Hd) as Hk.
      rewrite HY in Hk. discriminate. }
  split; [exact E|].
  intros section_label generic flags w.
  rewrite process_experience_like_attempts, process_education_attempts,
    process_simple_list_section_attempts.
  unfold Spec.experience_like, Spec.education, Spec.simple_list, Spec.per_item.
  cbn [length seq combine flat_map fst snd]. unfold Spec.text_at.
  cbn [nth_error]. rewrite E. repeat split; reflexivity.
Qed.

End Generator.

Arguments mkWorld {Client} _ _ _.
Arguments llm_client {Client} _.
Arguments calls {Client} _.
Arguments suggestions {Client} _.

(** * Instances *)

(** ** The scenarios of the specification *)

(** scenario 1: a generic summary and an oracle with a distinct answer *)
Example scenario_summary :
  exists y w',
    generate_resume_improvements nat Sample.marking (Some Sample.summary_analysis)
      (Some Sample.summary_document) (mkWorld 0 [] [])
    = Ok ([mkResumeSuggestion "summary" "Summary too generic"
             (Some "I am a hardworking person.") y], w')
    /\ length (calls w') = 1.
Proof. eexists. eexists. split; [vm_compute; reflexivity | reflexivity]. Qed.

(** scenario 2: two flags on one education entry *)
Example scenario_education :
  exists y1 y2 w',
    generate_resume_improvements nat Sample.marking (Some Sample.education_analysis)
      (Some Sample.education_document) (mkWorld 0 [] [])
    = Ok ([mkResumeSuggestion "education" "Too generic" (Some "BS CS, MIT, 2020") y1;
           mkResumeSuggestion "education" "Missing dates" (Some "BS CS, MIT, 2020") y2],
          w').
Proof. do 3 eexists. vm_compute. reflexivity. Qed.

(** scenario 3: an oracle that returns the input up to case and blanks *)
Example scenario_unchanged :
  exists w',
    generate_resume_improvements nat Sample.shouting (Some Sample.education_analysis)
      (Some Sample.education_document) (mkWorld 0 [] [])
    = Ok ([], w')
    /\ length (calls w') = 2.
Proof. eexists. split; [vm_compute; reflexivity | reflexivity]. Qed.

(** an oracle without an answer: the calls are made, nothing is suggested *)
Example scenario_no_answer :
  generate_resume_improvements nat Sample.silent (Some Sample.education_analysis)
    (Some Sample.education_document) (mkWorld 0 [] [])
  = Ok ([], mkWorld 2 [("BS CS, MIT, 2020", Instr.EDU_GENERIC);
                       ("BS CS, MIT, 2020", Instr.EDU_DATES)] []).
Proof. vm_compute. reflexivity. Qed.

(** scenario 4: an issue entry for [awards] past the end of the items *)
Example scenario_out_of_range :
  generate_resume_improvements nat Sample.marking (Some Sample.awards_analysis)
    (Some Sample.awards_document) (mkWorld 0 [] [])
  = Ok ([], mkWorld 0 [] []).
Proof. vm_compute. reflexivity. Qed.

(** ** The theorems at concrete inputs *)

Lemma change_filter_rule_witness :
  append_if_changed_with Str.strip Str.lower [] "summary" "Summary too generic"
    (Some "I am a hardworking person.") (Some " i am a HARDWORKING person. ") = []
  /\ append_if_changed_with Str.strip Str.lower [] "summary" "Summary too generic"
       (Some "I am a hardworking person.") (Some "Backend engineer, 5 years.")
     = [mkResumeSuggestion "summary" "Summary too generic"
          (Some "I am a hardworking person.") "Backend engineer, 5 years."]
  /\ append_if_changed [] "summary" "Summary too generic"
       (Some "I am a hardworking person.")
       (Some (" " ++ Str.upper "I am a hardworking person." ++ " ")%string) = [].
Proof.
  pose proof (change_filter_rule Str.strip Str.lower [] "summary"
                "Summary too generic" (Some "I am a hardworking person."))
    as (_ & _ & Hrej & Hacc & _ & Hascii & _).
  split; [|split].
  - apply Hrej. right. reflexivity.
  - apply Hacc; vm_compute; discriminate.
  - apply (Hascii "I am a hardworking person." " " " "); reflexivity.
Defined.

Lemma flatten_total_description_first_witness :
  _combine_entry_text_with Str.strip
    (VDict [("title", VStr "Engineer"); ("description", VStr " Built the API ");
            ("details", VStr "other")])
  = "Built the API".
Proof.
  apply (proj1 (proj2 (flatten_total_description_first Str.strip))
           [("title", VStr "Engineer"); ("description", VStr " Built the API ");
            ("details", VStr "other")] " Built the API ").
  - reflexivity.
  - vm_compute. discriminate.
Defined.

Lemma get_items_first_list_alias_witness :
  _get_items [("experience", VStr "see below"); ("work", VList [VStr "Acme"])]
    _EXPERIENCE_KEYS = [VStr "Acme"]
  /\ _get_items [("work_experience", VList [VStr "Beta"]);
                 ("experience", VList [VStr "Acme"])] _EXPERIENCE_KEYS
     = [VStr "Acme"].
Proof.
  destruct get_items_first_list_alias as (Hfirst & _ & Hexp).
  split.
  - apply (Hfirst [("experience", VStr "see below"); ("work", VList [VStr "Acme"])]
             ["experience"; "work_experience"] "work" ["professional_experience"]).
    + intros k' [<- | [<- | []]] l; vm_compute; discriminate.
    + reflexivity.
  - apply (Hexp _ [VStr "Acme"] [VStr "Beta"]); reflexivity.
Defined.

Lemma generate_empty_input_witness :
  exists w',
    generate_resume_improvements nat Sample.marking (Some [])
      (Some Sample.summary_document) (mkWorld 0 [] []) = Ok ([], w')
    /\ calls w' = []
    /\ llm_client w' = 0.
Proof.
  apply (generate_empty_input nat Sample.marking (Some [])
           (Some Sample.summary_document) (mkWorld 0 [] [])).
  left. right. reflexivity.
Defined.

Lemma generate_order_witness :
  exists out w',
    generate_resume_improvements nat Sample.marking
      (Some Sample.education_analysis) (Some Sample.education_document)
      (mkWorld 0 [] []) = Ok (out, w')
    /\ run_attempts nat Sample.marking
         (Spec.plan Sample.education_analysis Sample.education_document)
         (mkWorld 0 [] []) = Ok (tt, w')
    /\ out = suggestions w'
    /\ calls w'
       = [] ++ map Spec.call_of
                 (Spec.plan Sample.education_analysis Sample.education_document)
    /\ Spec.subseq (map Spec.head_of_suggestion out)
         (map Spec.head_of_attempt
            (Spec.plan Sample.education_analysis Sample.education_document))
    /\ StronglySorted le (map (fun s => Spec.rank (section s)) out).
Proof.
  apply (generate_order nat Sample.marking Sample.education_analysis
           Sample.education_document (mkWorld 0 [] [])); discriminate.
Defined.

(** C7 as stated fails: with a third recognised flag truthy the item gets
    three oracle calls and three suggestions. *)
Lemma three_flags_three_rewrites :
  truthy (dict_get Sample.three_flags "no_metrics") = true
  /\ truthy (dict_get Sample.three_flags "weak_action_verbs") = true
  /\ _combine_entry_text (VStr "Led a team of five") <> ""
  /\ exists w',
       _process_experience_like nat Sample.marking "experience"
         [VStr "Led a team of five"] (VList [VDict Sample.three_flags])
         (mkWorld 0 [] []) = Ok (tt, w')
       /\ length (calls w') = 3
       /\ length (suggestions w') = 3.
Proof.
  repeat split; try discriminate.
  eexists. split; [vm_compute; reflexivity | split; reflexivity].
Qed.

Lemma two_flags_two_rewrites_witness :
  exists w2,
    _process_experience_like nat Sample.marking "experience"
      [VStr "Led a team of five"] (VList ([] ++ [VDict Sample.two_flags]))
      (mkWorld 0 [] []) = Ok (tt, w2)
    /\ calls w2
       = [("Led a team of five", Instr.ADD_METRICS);
          ("Led a team of five", Instr.STRONG_VERBS)]
    /\ length (suggestions w2) = 2.
Proof.
  destruct (two_flags_two_rewrites nat Sample.marking "experience"
              [VStr "Led a team of five"] [] (VStr "Led a team of five")
              Sample.two_flags (mkWorld 0 [] []) (mkWorld 0 [] [])
              eq_refl ltac:(discriminate) eq_refl eq_refl eq_refl eq_refl
              eq_refl eq_refl eq_refl)
    as (w2 & Hrun & Hcalls & _ & Hsug & _).
  exists w2. split; [exact Hrun | split; [exact Hcalls|]].
  rewrite Hsug. reflexivity.
Defined.

(** C8 as stated fails: an item whose flattened text is empty gets no
    oracle call, whatever its flag-mapping holds. *)
Lemma blank_item_gets_no_fallback :
  Sample.unknown_flags <> []
  /\ truthy (dict_get Sample.unknown_flags "too_generic") = false
  /\ truthy (dict_get Sample.unknown_flags "missing_impact") = false
  /\ truthy (dict_get Sample.unknown_flags "too_wordy") = false
  /\ truthy (dict_get Sample.unknown_flags "too_long") = false
  /\ _process_simple_list_section nat Sample.marking "awards_achievements"
       [VStr ""] (VList [VDict Sample.unknown_flags]) Instr.AWARDS (mkWorld 0 [] [])
     = Ok (tt, mkWorld 0 [] []).
Proof.
  repeat split; try discriminate; reflexivity.
Qed.

Lemma unknown_flags_fallback_witness :
  _process_simple_list_section nat Sample.marking "awards_achievements"
    [VStr "Dean's list 2019"] (VList ([] ++ [VDict Sample.unknown_flags]))
    Instr.AWARDS (mkWorld 0 [] [])
  = Ok (tt, mkWorld 1 [("Dean's list 2019", Instr.AWARDS)]
              [mkResumeSuggestion "awards_achievements" "Improve phrasing"
                 (Some "Dean's list 2019") "Dean's list 2019 (revised)"])
  /\ _process_experience_like nat Sample.marking "experience"
       [VStr "Led a team of five"] (VList ([] ++ [VDict Sample.unknown_flags]))
       (mkWorld 0 [] [])
     = Ok (tt, mkWorld 0 [] []).
Proof.
  destruct (unknown_flags_fallback nat Sample.marking) as (Hsimple & Hexp).
  split.
  - apply (Hsimple "awards_achievements" Instr.AWARDS [VStr "Dean's list 2019"] []
             (VStr "Dean's list 2019") Sample.unknown_flags
             (mkWorld 0 [] []) (mkWorld 0 [] []));
      solve [reflexivity | discriminate].
  - rewrite (Hexp "experience" [VStr "Led a team of five"] []
               Sample.unknown_flags (mkWorld 0 [] []));
      reflexivity.
Defined.

Lemma skills_handler_witness :
  _process_skills nat Sample.marking Sample.skills_document
    (VDict [("missing_proficiency", VBool true)]) (mkWorld 0 [] [])
  = Ok (tt, mkWorld 1 [("Git, Python, Go", Instr.SKILLS)]
              [mkResumeSuggestion "skills" "Missing proficiency levels"
                 (Some "Git, Python, Go") "Git, Python, Go (revised)"])
  /\ _process_skills nat Sample.marking [("skills", VList [VInt 3])]
       (VDict [("too_generic", VBool true)]) (mkWorld 0 [] [])
     = Ok (tt, mkWorld 0 [] []).
Proof.
  destruct (skills_handler nat Sample.marking) as (Hcall & Hnone).
  split.
  - apply (Hcall Sample.skills_document [("missing_proficiency", VBool true)]
             (mkWorld 0 [] [])).
    + vm_compute. discriminate.
    + right. reflexivity.
  - apply Hnone. reflexivity.
Defined.

Lemma out_of_range_index_skipped_witness :
  _process_simple_list_section nat Sample.marking "awards_achievements"
    [VStr "Dean's list 2019"]
    (VList ([VDict []] ++ [VDict [("too_generic", VBool true)]])) Instr.AWARDS
    (mkWorld 0 [] [])
  = _process_simple_list_section nat Sample.marking "awards_achievements"
      [VStr "Dean's list 2019"] (VList [VDict []]) Instr.AWARDS (mkWorld 0 [] []).
Proof.
  apply (proj2 (proj2 (proj2 (proj2
           (out_of_range_index_skipped nat Sample.marking "awards_achievements"
              Instr.AWARDS [VStr "Dean's list 2019"] [VDict []]
              (mkWorld 0 [] [])))))).
  cbn [length]. lia.
Defined.

(** ** Oracle calls and answers *)

(** X15: which oracle calls a run makes, and in which order, does not
    depend on what the oracle answers: two runs of the entry point on the
    same analysis and document, with any two oracles, make the same calls. *)
Theorem calls_do_not_depend_on_answers :
  forall (Client1 Client2 : Type)
         (llm_call1 : Client1 -> string -> string -> option string * Client1)
         (llm_call2 : Client2 -> string -> string -> option string * Client2)
         (analysis resume_text : option dict)
         (w1 : world Client1) (w2 : world Client2),
  exists out1 w1' out2 w2' new_calls,
    generate_resume_improvements Client1 llm_call1 analysis resume_text w1
    = Ok (out1, w1')
    /\ generate_resume_improvements Client2 llm_call2 analysis resume_text w2
       = Ok (out2, w2')
    /\ calls w1' = calls w1 ++ new_calls
    /\ calls w2' = calls w2 ++ new_calls.
Proof.
  intros Client1 Client2 llm_call1 llm_call2 analysis resume_text w1 w2.
  destruct (generate_trace Client1 llm_call1 analysis resume_text w1)
    as (out1 & w1' & Hrun1 & Hcalls1 & _).
  destruct (generate_trace Client2 llm_call2 analysis resume_text w2)
    as (out2 & w2' & Hrun2 & Hcalls2 & _).
  now exists out1, w1', out2, w2', (planned_calls analysis resume_text).
Qed.

(** ** The further properties at concrete inputs *)

Lemma get_section_issues_first_present_witness :
  _get_section_issues nat
    [("experience", VNone); ("work", VList [VDict Sample.two_flags])]
    ([] ++ "experience" :: ["work_experience"; "work"; "professional_experience"])
    (mkWorld 0 [] [])
  = Ok (VNone, mkWorld 0 [] [])
  /\ _get_section_issues nat
       [("hobbies", VList [])] (["awards"] ++ "honors" :: []) (mkWorld 0 [] [])
     = Ok (VNone, mkWorld 0 [] [])
  /\ _get_section_issues nat [("hobbies", VList [])] _SUMMARY_KEYS (mkWorld 0 [] [])
     = Ok (VNone, mkWorld 0 [] []).
Proof.
  destruct (get_section_issues_first_present nat) as (Hfirst & Hnone).
  split; [|split].
  - apply Hfirst; [intros k' [] | reflexivity].
  - rewrite (Hnone [("hobbies", VList [])] (["awards"] ++ "honors" :: [])).
    + reflexivity.
    + intros k [<- | [<- | []]]; reflexivity.
  - apply Hnone. intros k [<- | [<- | [<- | []]]]; reflexivity.
Defined.

Lemma flatten_text_field_priority_witness :
  _combine_entry_text_with Str.strip
    (VDict [("summary", VStr " Ten years in data "); ("description", VStr "  ");
            ("text", VStr "ignored")])
  = "Ten years in data".
Proof.
  apply (flatten_text_field_priority Str.strip
           [("summary", VStr " Ten years in data "); ("description", VStr "  ");
            ("text", VStr "ignored")]
           ["description"; "details"] "summary" ["line"; "text"]
           " Ten years in data ").
  - reflexivity.
  - intros k' [<- | [<- | []]] Y HY; vm_compute in HY.
    + injection HY as <-. reflexivity.
    + discriminate.
  - reflexivity.
  - vm_compute. discriminate.
Defined.

Lemma flatten_bullets_fallback_witness :
  _combine_entry_text
    (VDict [("title", VStr "Engineer");
            ("bullets", VList [VStr "Built X"; VInt 3; VStr "Ran Y"])])
  = _combine_entry_text (VList [VStr "Built X"; VInt 3; VStr "Ran Y"])
  /\ _combine_entry_text
       (VDict [("title", VStr "Engineer");
               ("bullets", VList [VStr "Built X"; VInt 3; VStr "Ran Y"])])
     = Str.join Str.BULLET (only_strs [VStr "Built X"; VInt 3; VStr "Ran Y"]).
Proof.
  apply flatten_bullets_fallback.
  - intros k Hk Y HY. unfold TEXT_FIELDS in Hk. cbn [In] in Hk.
    repeat (destruct Hk as [<- | Hk]; [vm_compute in HY; discriminate|]).
    contradiction.
  - reflexivity.
  - discriminate.
Defined.

Lemma generate_nothing_new_witness :
  exists w',
    generate_resume_improvements nat Sample.silent (Some Sample.education_analysis)
      (Some Sample.education_document) (mkWorld 0 [] []) = Ok ([], w')
    /\ calls w'
       = [] ++ planned_calls (Some Sample.education_analysis)
                 (Some Sample.education_document).
Proof.
  apply (generate_nothing_new nat Sample.silent (Some Sample.education_analysis)
           (Some Sample.education_document) (mkWorld 0 [] [])).
  intros client text instruction. simpl. exact I.
Defined.

Lemma generate_unknown_sections_ignored_witness :
  exists w',
    generate_resume_improvements nat Sample.marking
      (Some [("hobbies", VDict [("too_generic", VBool true)])])
      (Some Sample.summary_document) (mkWorld 0 [] []) = Ok ([], w')
    /\ calls w' = []
    /\ llm_client w' = 0.
Proof.
  apply (generate_unknown_sections_ignored nat Sample.marking
           [("hobbies", VDict [("too_generic", VBool true)])]
           Sample.summary_document (mkWorld 0 [] [])).
  intros k Hk. unfold ISSUE_KEYS in Hk. cbv in Hk.
  repeat (destruct Hk as [<- | Hk]; [reflexivity|]). contradiction.
Defined.

Lemma generate_nothing_to_rewrite_witness :
  exists w',
    generate_resume_improvements nat Sample.marking
      (Some Sample.education_analysis)
      (Some [("name", VStr "Ada"); ("education", VList []); ("skills", VInt 3)])
      (mkWorld 0 [] []) = Ok ([], w')
    /\ calls w' = []
    /\ llm_client w' = 0.
Proof.
  apply (generate_nothing_to_rewrite nat Sample.marking
           Sample.education_analysis
           [("name", VStr "Ada"); ("education", VList []); ("skills", VInt 3)]
           (mkWorld 0 [] []));
    try reflexivity.
  intros s Hs. vm_compute in Hs. discriminate.
Defined.

Lemma simple_list_section_level_witness :
  _process_simple_list_section nat Sample.marking "awards_achievements"
    [VStr "Dean's list 2019"; VStr "Hackathon winner"]
    (VDict [("missing_impact", VBool true)]) Instr.AWARDS (mkWorld 0 [] [])
  = Ok (tt, mkWorld 1
              [("Dean's list 2019 • Hackathon winner", Instr.AWARDS)]
              [mkResumeSuggestion "awards_achievements" "Section too generic"
                 (Some "Dean's list 2019 • Hackathon winner")
                 "Dean's list 2019 • Hackathon winner (revised)"])
  /\ _process_simple_list_section nat Sample.marking "awards_achievements"
       [VStr "Dean's list 2019"] (VDict [("too_wordy", VBool true)]) Instr.AWARDS
       (mkWorld 0 [] [])
     = Ok (tt, mkWorld 0 [] []).
Proof.
  split.
  - apply (proj1 (simple_list_section_level nat Sample.marking "awards_achievements"
                    Instr.AWARDS [VStr "Dean's list 2019"; VStr "Hackathon winner"]
                    [("missing_impact", VBool true)] (mkWorld 0 [] []))).
    + right. right. reflexivity.
    + vm_compute. discriminate.
  - apply (proj2 (simple_list_section_level nat Sample.marking "awards_achievements"
                    Instr.AWARDS [VStr "Dean's list 2019"]
                    [("too_wordy", VBool true)] (mkWorld 0 [] []))).
    left. repeat split.
Defined.

Lemma education_section_level_witness :
  (exists w',
      _process_education nat Sample.marking
        [VDict [("description", VStr "BS CS, MIT, 2020")]]
        (VDict [("too_long", VBool true)]) (mkWorld 0 [] []) = Ok (tt, w')
      /\ calls w' = [("BS CS, MIT, 2020", Instr.EDU_SECTION)])
  /\ _process_education nat Sample.marking
       [VDict [("description", VStr "BS CS, MIT, 2020")]]
       (VDict [("missing_impact", VBool true)]) (mkWorld 0 [] [])
     = Ok (tt, mkWorld 0 [] []).
Proof.
  split.
  - eexists. split.
    + apply (proj1 (education_section_level nat Sample.marking
                      [VDict [("description", VStr "BS CS, MIT, 2020")]]
                      [("too_long", VBool true)] (mkWorld 0 [] []))).
      * right. reflexivity.
      * vm_compute. discriminate.
    + reflexivity.
  - apply (proj2 (education_section_level nat Sample.marking
                    [VDict [("description", VStr "BS CS, MIT, 2020")]]
                    [("missing_impact", VBool true)] (mkWorld 0 [] []))).
    left. repeat split.
Defined.

Lemma section_level_always_attempted_witness :
  section_block [VNone; VDict []] <> ""
  /\ (exists w',
         _process_simple_list_section nat Sample.marking "co_curricular"
           [VNone; VDict []] (VDict [("too_generic", VBool true)]) Instr.CO_CURR
           (mkWorld 0 [] []) = Ok (tt, w')
         /\ calls w' = [] ++ [(section_block [VNone; VDict []], Instr.CO_CURR)])
  /\ (exists w',
         _process_education nat Sample.marking [VNone; VDict []]
           (VDict [("too_generic", VBool true)]) (mkWorld 0 [] []) = Ok (tt, w')
         /\ calls w' = [] ++ [(section_block [VNone; VDict []], Instr.EDU_SECTION)]).
Proof.
  apply (section_level_always_attempted nat Sample.marking "co_curricular"
           Instr.CO_CURR [VNone; VDict []] [("too_generic", VBool true)]
           (mkWorld 0 [] [])).
  - cbn [length]. lia.
  - reflexivity.
Defined.

Lemma summary_handler_witness :
  (exists w' extra,
      _process_summary nat Sample.marking Sample.summary_document
        (VDict [("missing_keywords", VBool true); ("too_generic", VBool true)])
        (mkWorld 0 [] []) = Ok (tt, w')
      /\ calls w'
         = [("I am a hardworking person.", Instr.SUMMARY_SPECIFIC);
            ("I am a hardworking person.", Instr.KEYWORDS)]
      /\ suggestions w' = [] ++ extra
      /\ Forall (fun s => section s = "summary"
                          /\ original_text s = Some "I am a hardworking person.")
           extra)
  /\ _process_summary nat Sample.marking [("summary", VList [VStr "x"])]
       (VDict [("too_generic", VBool true)]) (mkWorld 0 [] [])
     = Ok (tt, mkWorld 0 [] []).
Proof.
  destruct (summary_handler nat Sample.marking) as (Hcalls & Hnone).
  split.
  - apply (Hcalls Sample.summary_document
             [("missing_keywords", VBool true); ("too_generic", VBool true)]
             "I am a hardworking person." (mkWorld 0 [] []));
      [reflexivity | discriminate].
  - apply Hnone. left. intros text H. vm_compute in H. discriminate.
Defined.

Lemma item_without_text_skipped_witness :
  _combine_entry_text
    (VDict [("year", VInt 2020); ("current", VBool true);
            ("school", VDict [("description", VStr "MIT")])]) = ""
  /\ _process_education nat Sample.marking
       [VDict [("year", VInt 2020); ("current", VBool true);
               ("school", VDict [("description", VStr "MIT")])]]
       (VList [VDict [("too_generic", VBool true)]]) (mkWorld 0 [] [])
     = Ok (tt, mkWorld 0 [] []).
Proof.
  destruct (item_without_text_skipped nat Sample.marking
              [("year", VInt 2020); ("current", VBool true);
               ("school", VDict [("description", VStr "MIT")])] eq_refl)
    as (Htext & Hskip).
  split; [exact Htext|].
  apply (Hskip "education" Instr.AWARDS [("too_generic", VBool true)]
           (mkWorld 0 [] [])).
Defined.
